(** * Ananta: the Gemini adapter of [gpt_engineer/core/gemini_ai.py]

    A shallow embedding of the class [GeminiAI]: content normalisation,
    conversation translation, model selection, the generation invoker with
    its fallback path, and the keyword trigger for secondary assets.

    Python values are embedded as the inductive [pyval]; a Python [str] is a
    [string] (a sequence of 8-bit characters), a [dict] with string keys is an
    association list in insertion order, looked up by first match.  Code that
    can raise returns a [result].  Everything the adapter reads from outside
    (file system, network, the provider, the interpreter's [str()] and
    [str.lower()]) is a field of the record [World]. *)

From Stdlib Require Import String Ascii List Bool Arith ZArith Lia DecimalString.
Import ListNotations.
Open Scope list_scope.
Open Scope string_scope.

(** ** Strings *)

Module PyStr.

(** The line feed of the f-strings in the source. *)
Definition nl : string := String (ascii_of_nat 10) EmptyString.

(** [s.startswith(p)] *)
Definition startswith (p s : string) : bool := String.prefix p s.

(** [sub in s] for two strings: some suffix of [s] starts with [sub]. *)
Fixpoint contains (sub s : string) : bool :=
  if startswith sub s then true
  else match s with
       | EmptyString => false
       | String _ s' => contains sub s'
       end.

(** [s.startswith((p1, p2, ...))] *)
Definition startswith_any (ps : list string) (s : string) : bool :=
  existsb (fun p => startswith p s) ps.

(** [s[1:]] *)
Definition tail (s : string) : string :=
  match s with
  | EmptyString => EmptyString
  | String _ s' => s'
  end.

(** [bool(s)]: a string is truthy when it is not empty. *)
Definition truthy (s : string) : bool :=
  match s with
  | EmptyString => false
  | String _ _ => true
  end.

(** The relational reading of containment, used in statements. *)
Definition Substring (sub s : string) : Prop :=
  exists pre post, s = pre ++ sub ++ post.

Definition Prefix (p s : string) : Prop :=
  exists post, s = p ++ post.

(** ASCII lower-casing, the restriction of [str.lower()] to 8-bit text
    without accented letters. *)
Definition lower_ascii_char (c : ascii) : ascii :=
  let n := nat_of_ascii c in
  if ((65 <=? n)%nat && (n <=? 90)%nat)%bool
  then ascii_of_nat (n + 32)%nat else c.

Fixpoint lower_ascii (s : string) : string :=
  match s with
  | EmptyString => EmptyString
  | String c s' => String (lower_ascii_char c) (lower_ascii s')
  end.

End PyStr.

(** ** Python values, exceptions

    The values that reach the adapter as message content; floats and tuples
    are left out. *)

#[warnings="-register-all"]
Inductive pyval : Type :=
| PNone
| PBool (b : bool)
| PInt (n : Z)
| PStr (s : string)
| PBytes (b : string)
| PList (xs : list pyval)
| PDict (kvs : list (string * pyval)).

(** An exception: its class name and the text [str(e)] gives. *)
Inductive exn : Type :=
| Exn (cls : string) (msg : string).

Definition exn_str (e : exn) : string :=
  match e with Exn _ msg => msg end.

Inductive result (A : Type) : Type :=
| Ok (a : A)
| Raise (e : exn).

Arguments Ok {A} a.
Arguments Raise {A} e.

Definition bind {A B : Type} (r : result A) (k : A -> result B) : result B :=
  match r with
  | Ok a => k a
  | Raise e => Raise e
  end.

Notation "x <- c ;; k" := (bind c (fun x => k))
  (at level 61, c at next level, right associativity).

Module PyDict.

(** [d.get(k)] as an option: the first binding of [k]. *)
Fixpoint get (kvs : list (string * pyval)) (k : string) : option pyval :=
  match kvs with
  | [] => None
  | (k', v) :: rest => if String.eqb k' k then Some v else get rest k
  end.

(** [k in d] *)
Definition mem (kvs : list (string * pyval)) (k : string) : bool :=
  match get kvs k with
  | Some _ => true
  | None => false
  end.

(** [d.get(k, default)] *)
Definition get_default (kvs : list (string * pyval)) (k : string)
           (default : pyval) : pyval :=
  match get kvs k with
  | Some v => v
  | None => default
  end.

End PyDict.

(** [v == s] for a string literal [s]. *)
Definition py_eq_str (v : pyval) (s : string) : bool :=
  match v with
  | PStr s' => String.eqb s' s
  | _ => false
  end.

(** The exceptions the adapter's own code can raise. *)
Definition TypeError_not_iterable : exn :=
  Exn "TypeError" "object is not iterable".
Definition AttributeError_get : exn :=
  Exn "AttributeError" "object has no attribute 'get'".
Definition IndexError_list : exn :=
  Exn "IndexError" "list index out of range".

(** [for x in v]: the items a [for] loop visits, or [TypeError]. *)
Definition py_iter (v : pyval) : result (list pyval) :=
  match v with
  | PList xs => Ok xs
  | PStr s => Ok (map (fun c => PStr (String c EmptyString)) (list_ascii_of_string s))
  | PBytes b =>
      Ok (map (fun c => PInt (Z.of_nat (nat_of_ascii c)))
              (list_ascii_of_string b))
  | PDict kvs => Ok (map (fun kv => PStr (fst kv)) kvs)
  | PNone | PBool _ | PInt _ => Raise TypeError_not_iterable
  end.

(** ** Conversation and provider data *)

(** The three LangChain message classes of [gpt_engineer.core.ai.Message]. *)
Inductive Message : Type :=
| SystemMessage (content : pyval)
| HumanMessage (content : pyval)
| AIMessage (content : pyval).

Definition content (m : Message) : pyval :=
  match m with
  | SystemMessage c | HumanMessage c | AIMessage c => c
  end.

(** A translated turn, the dict [{"role": ..., "parts": [...]}]. *)
Record GeminiMessage : Type := mkGeminiMessage {
  role : string;
  parts : list pyval
}.

(** The three model handles kept by the adapter. *)
Inductive Model : Type :=
| text_model
| vision_model
| multimodal_model.

(** ** The outside world *)

Record World : Type := mkWorld {
  (** [str(v)] for a value that is not a [str] *)
  py_repr : pyval -> string;
  (** [s.lower()] *)
  str_lower : string -> string;
  (** [str(Path(p))] *)
  path_str : string -> string;
  (** [Path(p).exists()]; [false] also when the test itself raises *)
  path_exists : string -> bool;
  (** [Path(p).suffix] *)
  path_suffix : string -> string;
  (** [open(Path(p), "rb").read()]; [None] when it raises *)
  read_bytes : string -> option string;
  (** [requests.get(url)] followed by [raise_for_status()], giving
      [response.content]; [None] when either raises *)
  requests_get : pyval -> option string;
  (** [model.generate_content(...)] followed by [response.text] *)
  generate_content : Model -> list GeminiMessage -> result string;
  (** the tokenizer behind the usage log *)
  num_tokens : string -> nat;
  num_tokens_from_messages : list Message -> nat
}.

(** [str(v)], and the [{v}] of an f-string. *)
Definition py_str (w : World) (v : pyval) : string :=
  match v with
  | PStr s => s
  | _ => py_repr w v
  end.

(** ** Media resolution *)

Definition text_part (s : string) : pyval := PDict [("text", PStr s)].

Definition media_blob (mime : string) (data : string) : pyval :=
  PDict [("mime_type", PStr mime); ("data", PBytes data)].

Definition _load_image_from_url (w : World) (image_url : pyval) : pyval :=
  match requests_get w image_url with
  | Some data => media_blob "image/jpeg" data
  | None => text_part ("[Image URL: " ++ py_str w image_url ++ "]")
  end.

(** A value without [startswith] raises inside the [try]; the name
    [image_path] is then still bound to the argument.  Past [Path(...)] it is
    bound to the path object, whose text is [path_str]. *)
Definition _load_image (w : World) (image_path : pyval) : pyval :=
  match image_path with
  | PStr p =>
      if PyStr.startswith_any ["http://"; "https://"] p
      then _load_image_from_url w image_path
      else
        if path_exists w p then
          match read_bytes w p with
          | Some image_data =>
              media_blob ("image/" ++ PyStr.tail (path_suffix w p)) image_data
          | None => text_part ("[Image: " ++ path_str w p ++ "]")
          end
        else text_part ("[Image: " ++ path_str w p ++ "]")
  | _ => text_part ("[Image: " ++ py_str w image_path ++ "]")
  end.

Definition _load_video (w : World) (video_path : pyval) : pyval :=
  match video_path with
  | PStr p =>
      if path_exists w p then
        match read_bytes w p with
        | Some video_data =>
            media_blob ("video/" ++ PyStr.tail (path_suffix w p)) video_data
        | None => text_part ("[Video: " ++ path_str w p ++ "]")
        end
      else text_part ("[Video: " ++ path_str w p ++ "]")
  | _ => text_part ("[Video: " ++ py_str w video_path ++ "]")
  end.

(** ** Content normalisation *)

(** One round of the loop over a content list: the parts it appends.  A dict
    carrying a ["type"] other than ["text"] and ["image_url"] takes the outer
    [if] and neither inner branch, so nothing is appended for it. *)
Definition process_item (w : World) (item : pyval) : result (list pyval) :=
  match item with
  | PDict d =>
      match PyDict.get d "type" with
      | Some ty =>
          if py_eq_str ty "text" then
            Ok [PyDict.get_default d "text" (PStr "")]
          else if py_eq_str ty "image_url" then
            match PyDict.get_default d "image_url" (PDict []) with
            | PDict u =>
                Ok [_load_image_from_url w (PyDict.get_default u "url" PNone)]
            | _ => Raise AttributeError_get
            end
          else Ok []
      | None => Ok [PStr (py_str w item)]
      end
  | _ => Ok [PStr (py_str w item)]
  end.

Fixpoint process_items (w : World) (items : list pyval) : result (list pyval) :=
  match items with
  | [] => Ok []
  | item :: rest =>
      ps <- process_item w item ;;
      qs <- process_items w rest ;;
      Ok (ps ++ qs)%list
  end.

(** The loaders applied to the members of [content["images"]] or
    [content["videos"]], when the key is there. *)
Definition load_all (load : pyval -> pyval) (field : option pyval)
  : result (list pyval) :=
  match field with
  | None => Ok []
  | Some v => xs <- py_iter v ;; Ok (map load xs)
  end.

Definition _process_multimodal_content (w : World) (content : pyval)
  : result pyval :=
  match content with
  | PStr _ => Ok content
  | PDict d =>
      let texts :=
        match PyDict.get d "text" with
        | Some t => [t]
        | None => []
        end in
      images <- load_all (_load_image w) (PyDict.get d "images") ;;
      videos <- load_all (_load_video w) (PyDict.get d "videos") ;;
      match (texts ++ images ++ videos)%list with
      | [] => Ok content
      | ps => Ok (PList ps)
      end
  | PList items => ps <- process_items w items ;; Ok (PList ps)
  | _ => Ok (PStr (py_str w content))
  end.

(** ** Conversation translation *)

(** [content if isinstance(content, list) else [content]] *)
Definition as_parts (c : pyval) : list pyval :=
  match c with
  | PList ps => ps
  | _ => [c]
  end.

(** The main pass: system turns are skipped. *)
Fixpoint convert_pass (w : World) (messages : list Message)
  : result (list GeminiMessage) :=
  match messages with
  | [] => Ok []
  | SystemMessage _ :: rest => convert_pass w rest
  | HumanMessage c :: rest =>
      c' <- _process_multimodal_content w c ;;
      gs <- convert_pass w rest ;;
      Ok (mkGeminiMessage "user" (as_parts c') :: gs)
  | AIMessage c :: rest =>
      gs <- convert_pass w rest ;;
      Ok (mkGeminiMessage "model" [c] :: gs)
  end.

(** [next((msg for msg in messages if isinstance(msg, SystemMessage)), None)] *)
Fixpoint first_system (messages : list Message) : option pyval :=
  match messages with
  | [] => None
  | SystemMessage c :: _ => Some c
  | _ :: rest => first_system rest
  end.

(** The assignment to [first_user_msg["parts"][0]]: the first entry whose
    role is ["user"] gets the prefix when its first part is a [str]; reading
    [parts[0]] of an empty list raises.  The list assigned into was built by
    the main pass for this entry alone (a fresh [[content]] or the fresh list
    of the normaliser), so the assignment reaches no message of the
    conversation and no other entry. *)
Fixpoint prepend_system (system_content : string) (gs : list GeminiMessage)
  : result (list GeminiMessage) :=
  match gs with
  | [] => Ok []
  | g :: rest =>
      if String.eqb (role g) "user" then
        match parts g with
        | [] => Raise IndexError_list
        | PStr t :: ps =>
            Ok (mkGeminiMessage (role g) (PStr (system_content ++ t) :: ps) :: rest)
        | _ :: _ => Ok gs
        end
      else
        rest' <- prepend_system system_content rest ;;
        Ok (g :: rest')
  end.

Definition system_prefix (w : World) (system_text : pyval) : string :=
  "System: " ++ py_str w system_text ++ PyStr.nl ++ PyStr.nl ++ "User: ".

Definition _convert_messages_to_gemini (w : World) (messages : list Message)
  : result (list GeminiMessage) :=
  gemini_messages <- convert_pass w messages ;;
  match first_system messages with
  | Some system_text =>
      prepend_system (system_prefix w system_text) gemini_messages
  | None => Ok gemini_messages
  end.

(** ** The adapter object *)

(** [self]: the configuration attributes, and the two asset generators, which
    are reached through [self] and so can be replaced by a subclass.  The
    decoding temperature only travels to the provider, which here is the
    oracle [generate_content]. *)
Record GeminiAI : Type := mkGeminiAI {
  model_name : string;
  enable_image_generation : bool;
  enable_video_generation : bool;
  enable_multimodal : bool;
  generate_images_from_response : string -> string -> list string;
  generate_videos_from_response : string -> string -> list string
}.

(** The generators as the class [GeminiAI] defines them: the directory
    [generated_assets/<step>] is created and no path is returned, on the
    normal path and in the [except] branch alike. *)
Definition base_generate_images_from_response
           (response step_name : string) : list string := [].

Definition base_generate_videos_from_response
           (response step_name : string) : list string := [].

(** [GeminiAI(model_name=..., enable_...=...)] *)
Definition GeminiAI_init (name : string) (images videos multimodal : bool)
  : GeminiAI :=
  mkGeminiAI name images videos multimodal
             base_generate_images_from_response
             base_generate_videos_from_response.

(** ** Model selection *)

Definition visual_types : list string := ["image_url"; "image"; "video"].

(** [item.get("type") in ["image_url", "image", "video"]] *)
Definition visual_item (item : pyval) : bool :=
  match item with
  | PDict d =>
      match PyDict.get d "type" with
      | Some ty => existsb (py_eq_str ty) visual_types
      | None => false
      end
  | _ => false
  end.

Definition _contains_visual_content (content : pyval) : bool :=
  match content with
  | PDict d => PyDict.mem d "images" || PyDict.mem d "videos"
  | PList items => existsb visual_item items
  | _ => false
  end.

Definition is_dict_or_list (v : pyval) : bool :=
  match v with
  | PDict _ | PList _ => true
  | _ => false
  end.

Definition _select_model (self : GeminiAI) (messages : list Message) : Model :=
  let has_images :=
    existsb (fun msg => is_dict_or_list (content msg)
                        && _contains_visual_content (content msg))
            messages in
  if has_images || enable_multimodal self then
    if PyStr.contains "1.5" (model_name self) then multimodal_model
    else vision_model
  else text_model.

(** ** The secondary-asset trigger *)

Definition image_keywords : list string :=
  ["generate image"; "create image"; "make image"; "draw";
   "visualize"; "diagram"; "chart"; "graph"; "mockup";
   "ui design"; "logo"; "icon"; "illustration"].

Definition video_keywords : list string :=
  ["generate video"; "create video"; "make video"; "animation";
   "demo video"; "tutorial video"; "walkthrough"; "presentation"].

Definition _should_generate_images (w : World) (response : string) : bool :=
  existsb (fun keyword => PyStr.contains keyword (str_lower w response))
          image_keywords.

Definition _should_generate_videos (w : World) (response : string) : bool :=
  existsb (fun keyword => PyStr.contains keyword (str_lower w response))
          video_keywords.

(** The two [for] loops, each [+=] appending one line. *)
Definition add_image_line (acc img_path : string) : string :=
  acc ++ "![Generated Image](" ++ img_path ++ ")" ++ PyStr.nl.

Definition add_video_line (acc video_path : string) : string :=
  acc ++ "[Generated Video](" ++ video_path ++ ")" ++ PyStr.nl.

Definition images_header : string :=
  PyStr.nl ++ PyStr.nl ++ "## Generated Images" ++ PyStr.nl.

Definition videos_header : string :=
  PyStr.nl ++ PyStr.nl ++ "## Generated Videos" ++ PyStr.nl.

Definition _handle_generation_requests (w : World) (self : GeminiAI)
           (response step_name : string) : string :=
  let enhanced_response := response in
  let enhanced_response :=
    if enable_image_generation self && _should_generate_images w response then
      match generate_images_from_response self response step_name with
      | [] => enhanced_response
      | generated_images =>
          fold_left add_image_line generated_images
                    (enhanced_response ++ images_header)
      end
    else enhanced_response in
  if enable_video_generation self && _should_generate_videos w response then
    match generate_videos_from_response self response step_name with
    | [] => enhanced_response
    | generated_videos =>
        fold_left add_video_line generated_videos
                  (enhanced_response ++ videos_header)
    end
  else enhanced_response.

(** ** Usage accounting *)

(** Modelled from the spec: the class [TokenUsageLog] of
    [gpt_engineer/core/token_usage.py] is not among the sources.  Following
    section 4.6, the ledger holds one entry per recorded invocation (step
    label and token counts) and the running totals. *)
Record TokenUsage : Type := mkTokenUsage {
  usage_step_name : string;
  in_step_prompt_tokens : nat;
  in_step_completion_tokens : nat;
  total_prompt_tokens : nat;
  total_completion_tokens : nat
}.

Record TokenUsageLog : Type := mkTokenUsageLog {
  usage_entries : list TokenUsage;
  cumulative_prompt_tokens : nat;
  cumulative_completion_tokens : nat
}.

(** Modelled from the spec: [TokenUsageLog.update_log], missing with its
    class; it appends one entry and advances both totals. *)
Definition update_log (w : World) (log : TokenUsageLog)
           (messages : list Message) (answer step_name : string)
  : TokenUsageLog :=
  let prompt_tokens := num_tokens_from_messages w messages in
  let completion_tokens := num_tokens w answer in
  let total_p := (cumulative_prompt_tokens log + prompt_tokens)%nat in
  let total_c := (cumulative_completion_tokens log + completion_tokens)%nat in
  mkTokenUsageLog
    (usage_entries log ++
       [mkTokenUsage step_name prompt_tokens completion_tokens total_p total_c])%list
    total_p total_c.

(** ** The generation invoker *)

(** [if prompt: messages.append(HumanMessage(content=prompt))] *)
Definition append_prompt (messages : list Message) (prompt : option string)
  : list Message :=
  match prompt with
  | Some p =>
      if PyStr.truthy p then (messages ++ [HumanMessage (PStr p)])%list
      else messages
  | None => messages
  end.

Definition fallback_response (e : exn) : string :=
  "Error with Gemini API: " ++ exn_str e ++ ". Please try again.".

(** [next] returns the list it was given, extended in place, and leaves the
    adapter's usage log in the state paired with it.  Translation and model
    selection run before the [try]: what they raise reaches the caller. *)
Definition next (w : World) (self : GeminiAI) (log : TokenUsageLog)
           (messages : list Message) (prompt : option string)
           (step_name : string)
  : result (list Message) * TokenUsageLog :=
  let messages := append_prompt messages prompt in
  match _convert_messages_to_gemini w messages with
  | Raise e => (Raise e, log)
  | Ok gemini_messages =>
      let model := _select_model self messages in
      match generate_content w model gemini_messages with
      | Ok response_content =>
          let enhanced_response :=
            _handle_generation_requests w self response_content step_name in
          let log' := update_log w log messages enhanced_response step_name in
          (Ok (messages ++ [AIMessage (PStr enhanced_response)])%list, log')
      | Raise e =>
          (Ok (messages ++ [AIMessage (PStr (fallback_response e))])%list, log)
      end
  end.

Definition start (w : World) (self : GeminiAI) (log : TokenUsageLog)
           (system : string) (user : pyval) (step_name : string)
  : result (list Message) * TokenUsageLog :=
  next w self log [SystemMessage (PStr system); HumanMessage user] None step_name.

(** ** A concrete world

    POSIX path rendering as [pathlib] does it, [repr] for printable ASCII
    data, and a machine with no files, no network and no provider. *)

Module Posix.

Definition slash : ascii := "/"%char.
Definition dot : ascii := "."%char.

(** [s.split("/")] *)
Fixpoint components (s : string) : list string :=
  match s with
  | EmptyString => [EmptyString]
  | String c s' =>
      if Ascii.eqb c slash then EmptyString :: components s'
      else match components s' with
           | [] => [String c EmptyString]
           | x :: xs => String c x :: xs
           end
  end.

(** Empty and ["."] components are dropped when a path is parsed. *)
Definition kept (x : string) : bool :=
  negb (String.eqb x "" || String.eqb x ".").

Definition path_parts (s : string) : list string :=
  filter kept (components s).

Fixpoint leading_slashes (s : string) : nat :=
  match s with
  | String c s' => if Ascii.eqb c slash then S (leading_slashes s') else 0
  | EmptyString => 0
  end.

(** Exactly two leading slashes are kept, any other number is one root. *)
Definition root (s : string) : string :=
  match leading_slashes s with
  | 0 => ""
  | 2 => "//"
  | _ => "/"
  end.

(** [str(PurePosixPath(s))] *)
Definition render (s : string) : string :=
  match root s, path_parts s with
  | EmptyString, [] => "."
  | r, ps => r ++ String.concat "/" ps
  end.

(** [name[name.rfind("."):]], when the name has a dot *)
Fixpoint from_last_dot (name : string) : option string :=
  match name with
  | EmptyString => None
  | String c rest =>
      match from_last_dot rest with
      | Some s => Some s
      | None => if Ascii.eqb c dot then Some name else None
      end
  end.

(** [PurePosixPath(s).suffix]: the last dot of the final component, unless
    it is that component's first or last character. *)
Definition suffix (s : string) : string :=
  match last (path_parts s) EmptyString with
  | EmptyString => ""
  | String _ rest =>
      match from_last_dot rest with
      | Some (String d (String c t)) => String d (String c t)
      | _ => ""
      end
  end.

End Posix.

Module Repr.

Definition quote : ascii := "'"%char.
Definition dquote : ascii := ascii_of_nat 34.
Definition backslash : ascii := ascii_of_nat 92.

Fixpoint has_char (c : ascii) (s : string) : bool :=
  match s with
  | EmptyString => false
  | String c' s' => Ascii.eqb c c' || has_char c s'
  end.

(** Escapes inside a literal delimited by [q]. *)
Fixpoint escape (q : ascii) (s : string) : string :=
  match s with
  | EmptyString => EmptyString
  | String c s' =>
      let rest := escape q s' in
      if Ascii.eqb c backslash || Ascii.eqb c q
      then String backslash (String c rest)
      else if Ascii.eqb c (ascii_of_nat 10) then String backslash (String "n" rest)
      else if Ascii.eqb c (ascii_of_nat 13) then String backslash (String "r" rest)
      else if Ascii.eqb c (ascii_of_nat 9) then String backslash (String "t" rest)
      else String c rest
  end.

(** [repr(s)] of a [str]: double quotes only when the text has a single
    quote and no double quote. *)
Definition of_str (s : string) : string :=
  let q := if has_char quote s && negb (has_char dquote s)
           then dquote else quote in
  String q (escape q s ++ String q EmptyString).

Definition of_int (n : Z) : string :=
  NilZero.string_of_int (Z.to_int n).

(** [repr(v)], which is also [str(v)] when [v] is not a [str]; exact on
    data whose text is printable ASCII. *)
Fixpoint of_val (v : pyval) : string :=
  match v with
  | PNone => "None"
  | PBool true => "True"
  | PBool false => "False"
  | PInt n => of_int n
  | PStr s => of_str s
  | PBytes b => String "b" (of_str b)
  | PList xs => "[" ++ String.concat ", " (map of_val xs) ++ "]"
  | PDict kvs =>
      "{" ++ String.concat ", "
               (map (fun kv => of_str (fst kv) ++ ": " ++ of_val (snd kv)) kvs)
          ++ "}"
  end.

End Repr.

Module Offline.

Definition unreachable : exn :=
  Exn "ServiceUnavailable" "503 model unavailable".

(** No file exists, every fetch fails and the provider is down. *)
Definition world : World :=
  {| py_repr := Repr.of_val;
     str_lower := PyStr.lower_ascii;
     path_str := Posix.render;
     path_exists := fun _ => false;
     path_suffix := Posix.suffix;
     read_bytes := fun _ => None;
     requests_get := fun _ => None;
     generate_content := fun _ _ => Raise unreachable;
     num_tokens := String.length;
     num_tokens_from_messages := fun ms => List.length ms |}.

(** The same machine with a provider that answers every request with
    [reply]. *)
Definition answering (reply : string) : World :=
  {| py_repr := Repr.of_val;
     str_lower := PyStr.lower_ascii;
     path_str := Posix.render;
     path_exists := fun _ => false;
     path_suffix := Posix.suffix;
     read_bytes := fun _ => None;
     requests_get := fun _ => None;
     generate_content := fun _ _ => Ok reply;
     num_tokens := String.length;
     num_tokens_from_messages := fun ms => List.length ms |}.

Definition empty_log : TokenUsageLog := mkTokenUsageLog [] 0 0.

(** A log that already holds the entry of an earlier step. *)
Definition used_log : TokenUsageLog :=
  mkTokenUsageLog [mkTokenUsage "clarify" 12 40 12 40] 12 40.

(** The adapter with the constructor's default arguments. *)
Definition adapter : GeminiAI := GeminiAI_init "gemini-1.5-pro" true true true.

(** A subclass instance whose generators do return paths. *)
Definition illustrating : GeminiAI :=
  mkGeminiAI "gemini-1.5-pro" true true true
             (fun _ step_name =>
                ["generated_assets/" ++ step_name ++ "/diagram.png"])
             (fun _ step_name =>
                ["generated_assets/" ++ step_name ++ "/demo.mp4"]).

Definition scenario : list Message :=
  [SystemMessage (PStr "You write code");
   HumanMessage (PStr "Create a calculator")].

End Offline.

(** ** Vocabulary of the statements

    What the properties below speak about, said apart from the code:
    which turn is the first user turn, what counts as visual content, what
    text a section of generated assets consists of, and the inputs of the
    examples. *)

(** *** Conversation translation *)

(** The contents of the system turns, in order. *)
Definition system_texts (messages : list Message) : list pyval :=
  flat_map (fun m => match m with SystemMessage c => [c] | _ => [] end)
           messages.

(** The content of the first user turn. *)
Fixpoint first_human (messages : list Message) : option pyval :=
  match messages with
  | [] => None
  | HumanMessage c :: _ => Some c
  | _ :: rest => first_human rest
  end.

(** The first part of a turn that is text. *)
Fixpoint first_text (ps : list pyval) : option string :=
  match ps with
  | [] => None
  | PStr t :: _ => Some t
  | _ :: rest => first_text rest
  end.

Definition is_str (v : pyval) : bool :=
  match v with
  | PStr _ => true
  | _ => false
  end.

Definition provider_role (g : GeminiMessage) : Prop :=
  role g = "user" \/ role g = "model".

(** A user turn that opens with an image item and carries its text second. *)
Definition image_then_text : list Message :=
  [SystemMessage (PStr "Be brief");
   HumanMessage
     (PList [PDict [("type", PStr "image_url");
                    ("image_url",
                     PDict [("url", PStr "http://example.invalid/a.png")])];
             PDict [("type", PStr "text"); ("text", PStr "hi")]])].

(** *** Content normalisation *)

(** The items for which one round of the loop appends exactly one part. *)
Definition yields_one_part (item : pyval) : bool :=
  match item with
  | PDict d =>
      match PyDict.get d "type" with
      | Some ty =>
          py_eq_str ty "text"
          || (py_eq_str ty "image_url"
              && match PyDict.get_default d "image_url" (PDict []) with
                 | PDict _ => true
                 | _ => false
                 end)
      | None => true
      end
  | _ => true
  end.

(** A content list of three typed items, the middle one a video item. *)
Definition text_video_text : pyval :=
  PList [PDict [("type", PStr "text"); ("text", PStr "before")];
         PDict [("type", PStr "video"); ("video", PStr "demo.mp4")];
         PDict [("type", PStr "text"); ("text", PStr "after")]].

(** *** Model selection *)

(** Visual indicators, in the words of the selection rule: a dict content
    with an ["images"] or a ["videos"] key, or a list content with a dict
    item whose ["type"] is one of the three visual discriminators. *)
Definition visual_indicator (c : pyval) : Prop :=
  (exists d, c = PDict d /\
             (PyDict.get d "images" <> None \/ PyDict.get d "videos" <> None))
  \/
  (exists items d ty,
      c = PList items /\ In (PDict d) items /\
      PyDict.get d "type" = Some (PStr ty) /\
      (ty = "image_url" \/ ty = "image" \/ ty = "video")).

Definition carries_visual_content (messages : list Message) : Prop :=
  exists m, In m messages /\ visual_indicator (content m).

Definition images_turn : list Message :=
  [HumanMessage (PDict [("images", PList [PStr "a.png"])])].

Definition text_only_turns : list Message :=
  [SystemMessage (PStr "You write code");
   HumanMessage (PStr "Create a calculator")].

(** *** The secondary-asset trigger *)

Definition image_line (img_path : string) : string :=
  "![Generated Image](" ++ img_path ++ ")" ++ PyStr.nl.

Definition video_line (video_path : string) : string :=
  "[Generated Video](" ++ video_path ++ ")" ++ PyStr.nl.

(** One line per path, in order. *)
Definition lines_of (line : string -> string) (paths : list string) : string :=
  fold_right (fun p rest => line p ++ rest) "" paths.

(** A section is written only for a list of paths that is not empty. *)
Definition generated_section (header : string) (line : string -> string)
           (paths : list string) : string :=
  match paths with
  | [] => ""
  | _ :: _ => header ++ lines_of line paths
  end.

(** The text the image check and the video check add to a response. *)
Definition images_added (w : World) (self : GeminiAI)
           (response step_name : string) : string :=
  if enable_image_generation self && _should_generate_images w response
  then generated_section images_header image_line
         (generate_images_from_response self response step_name)
  else "".

Definition videos_added (w : World) (self : GeminiAI)
           (response step_name : string) : string :=
  if enable_video_generation self && _should_generate_videos w response
  then generated_section videos_header video_line
         (generate_videos_from_response self response step_name)
  else "".

Definition diagram_response : string := "Here is a diagram of the architecture".

(** ** Construction of the adapter *)

(** [self.vision], which the constructor computes from the model name and
    nothing changes afterwards. *)
Definition vision (self : GeminiAI) : bool :=
  PyStr.contains "vision" (model_name self)
  || PyStr.contains "1.5" (model_name self).

(** What the constructor calls outside the adapter: [genai.configure],
    [genai.GenerativeModel] and the constructor of the usage log.  Each
    either returns or raises the exception given. *)
Record GenAI : Type := mkGenAI {
  configure : string -> option exn;
  GenerativeModel : option string -> option exn;
  TokenUsageLog_new : string -> option exn
}.

Definition ValueError_api_key : exn :=
  Exn "ValueError"
      "Google API key is required. Set GOOGLE_API_KEY environment variable.".

Definition TypeError_in_None : exn :=
  Exn "TypeError" "argument of type 'NoneType' is not iterable".

(** [a or b] for two optional strings. *)
Definition or_else (a b : option string) : option string :=
  match a with
  | Some s => if PyStr.truthy s then a else b
  | None => b
  end.

(** A call made for its effect only. *)
Definition call (outcome : option exn) : result unit :=
  match outcome with
  | Some e => Raise e
  | None => Ok tt
  end.

(** [GeminiAI.__init__]; [getenv_key] is [os.getenv("GOOGLE_API_KEY")].
    The temperature and the streaming flag are stored and not read again by
    the code modelled here.  A model name [None] passes the assignments and
    raises at the latest in ["vision" in model_name]. *)
Definition GeminiAI__init__ (sdk : GenAI) (getenv_key : option string)
           (name : option string) (google_api_key : option string)
           (images videos multimodal : bool) : result GeminiAI :=
  match or_else google_api_key getenv_key with
  | None => Raise ValueError_api_key
  | Some api_key =>
      if PyStr.truthy api_key then
        _ <- call (configure sdk api_key) ;;
        _ <- call (GenerativeModel sdk name) ;;
        _ <- call (GenerativeModel sdk (Some "gemini-1.5-pro")) ;;
        _ <- call (GenerativeModel sdk (Some "gemini-1.5-pro")) ;;
        match name with
        | None => Raise TypeError_in_None
        | Some model =>
            _ <- call (TokenUsageLog_new sdk model) ;;
            Ok (mkGeminiAI model images videos multimodal
                           base_generate_images_from_response
                           base_generate_videos_from_response)
        end
      else Raise ValueError_api_key
  end.

(** The keyword arguments a caller may pass on; [None] is an argument left
    out, for which the constructor's default stands. *)
Record Kwargs : Type := mkKwargs {
  kw_google_api_key : option string;
  kw_enable_image_generation : option bool;
  kw_enable_video_generation : option bool;
  kw_enable_multimodal : option bool
}.

Definition given (default : bool) (arg : option bool) : bool :=
  match arg with
  | Some b => b
  | None => default
  end.

(** [GeminiMultimodalAI.__init__], called with keyword arguments only;
    [kw_model_name] is [None] when
    the keyword is absent and [Some v] when it is present with value [v],
    which [setdefault] then leaves alone, also when [v] is [None]. *)
Definition GeminiMultimodalAI__init__ (sdk : GenAI) (getenv_key : option string)
           (kw_model_name : option (option string)) (kwargs : Kwargs)
  : result GeminiAI :=
  let name :=
    match kw_model_name with
    | Some v => v
    | None => Some "gemini-1.5-pro"
    end in
  GeminiAI__init__ sdk getenv_key name (kw_google_api_key kwargs)
                   (given true (kw_enable_image_generation kwargs))
                   (given true (kw_enable_video_generation kwargs))
                   (given true (kw_enable_multimodal kwargs)).

Definition create_gemini_ai (sdk : GenAI) (getenv_key : option string)
           (model_type : string) (name : option string) (kwargs : Kwargs)
  : result GeminiAI :=
  if String.eqb model_type "multimodal" then
    GeminiMultimodalAI__init__ sdk getenv_key (Some name) kwargs
  else
    GeminiAI__init__ sdk getenv_key
                     (or_else name (Some "gemini-1.5-pro"))
                     (kw_google_api_key kwargs)
                     (given true (kw_enable_image_generation kwargs))
                     (given true (kw_enable_video_generation kwargs))
                     (given true (kw_enable_multimodal kwargs)).

(** ** The steps of [gpt_engineer/tools/gemini_steps.py] *)

Module Steps.

(** Characters [str.strip()] removes, among the code points below 256. *)
Definition is_space (c : ascii) : bool :=
  let n := nat_of_ascii c in
  (((9 <=? n)%nat && (n <=? 13)%nat)
   || ((28 <=? n)%nat && (n <=? 32)%nat)
   || (n =? 133)%nat || (n =? 160)%nat)%bool.

Fixpoint lstrip (s : string) : string :=
  match s with
  | EmptyString => EmptyString
  | String c s' => if is_space c then lstrip s' else s
  end.

Fixpoint rstrip (s : string) : string :=
  match s with
  | EmptyString => EmptyString
  | String c s' =>
      match rstrip s' with
      | EmptyString => if is_space c then EmptyString else String c EmptyString
      | r => String c r
      end
  end.

(** [s.strip()] *)
Definition strip (s : string) : string := rstrip (lstrip s).


Definition AttributeError_strip : exn :=
  Exn "AttributeError" "object has no attribute 'strip'".

(** [messages[-1].content.strip()] *)
Definition last_content_stripped (messages : list Message) : result string :=
  match rev messages with
  | [] => Raise IndexError_list
  | m :: _ =>
      match content m with
      | PStr s => Ok (strip s)
      | _ => Raise AttributeError_strip
      end
  end.




Definition arch_prompt (w : World) (file_names : list string) : string :=
  (String.concat PyStr.nl
    ["";
     "        Create a detailed architecture description with ASCII diagrams for:";
     "        ";
     "        Files: "])
  ++ py_str w (PList (map PStr file_names))
  ++ (String.concat PyStr.nl
    ["";
     "        ";
     "        Include:";
     "        1. Component relationships";
     "        2. Data flow";
     "        3. System architecture";
     "        4. Deployment structure";
     "        "]).

Definition arch_system : string :=
  "Create clear architectural documentation with visual elements.".

(** [_generate_documentation_visuals]; [file_names] is
    [list(files_dict.keys())]. *)
Definition _generate_documentation_visuals (w : World) (ai : GeminiAI)
           (log : TokenUsageLog) (file_names : list string)
           (step_name : string)
  : list (string * string) * TokenUsageLog :=
  match start w ai log arch_system (PStr (arch_prompt w file_names))
              (step_name ++ "_architecture") with
  | (Raise _, log') => ([], log')
  | (Ok messages, log') =>
      match last_content_stripped messages with
      | Raise _ => ([], log')
      | Ok arch_doc => ([("ARCHITECTURE_VISUAL.md", arch_doc)], log')
      end
  end.

Definition ui_extensions : list string :=
  [".html"; ".css"; ".js"; ".jsx"; ".vue"; ".svelte"].

(** [any(ext in f.lower() for ext in [...])] *)
Definition is_ui_file (w : World) (f : string) : bool :=
  existsb (fun ext => PyStr.contains ext (str_lower w f)) ui_extensions.

Definition mockup_prompt (w : World) (prompt_text : string)
           (ui_files : list string) : string :=
  (String.concat PyStr.nl
    ["";
     "            Create UI mockup descriptions for this web project:";
     "            ";
     "            Original requirements: "])
  ++ prompt_text
  ++ (String.concat PyStr.nl
    ["";
     "            UI Files: "])
  ++ py_str w (PList (map PStr ui_files))
  ++ (String.concat PyStr.nl
    ["";
     "            ";
     "            Describe the visual layout, components, and user interface elements.";
     "            "]).

Definition mockup_system : string :=
  "You are a UI/UX designer. Create detailed mockup descriptions.".

(** [_generate_ui_mockups]; [file_names] is [files_dict.keys()] and
    [prompt_text] is [prompt.text]. *)
Definition _generate_ui_mockups (w : World) (ai : GeminiAI)
           (log : TokenUsageLog) (file_names : list string)
           (prompt_text : string)
  : list (string * string) * TokenUsageLog :=
  match filter (is_ui_file w) file_names with
  | [] => ([], log)
  | ui_files =>
      match start w ai log mockup_system
                  (PStr (mockup_prompt w prompt_text ui_files))
                  "ui_mockups" with
      | (Raise _, log') => ([], log')
      | (Ok messages, log') =>
          match last_content_stripped messages with
          | Raise _ => ([], log')
          | Ok mockup_description =>
              ([("UI_MOCKUPS.md", mockup_description)], log')
          end
      end
  end.

End Steps.

(** ** Inputs of further examples *)

(** An SDK whose calls all return. *)
Definition working_sdk : GenAI :=
  mkGenAI (fun _ => None) (fun _ => None) (fun _ => None).

Definition no_kwargs : Kwargs := mkKwargs None None None None.

(** The number of parts a list item leaves behind. *)
Definition parts_yielded (item : pyval) : nat :=
  if yields_one_part item then 1 else 0.

(** An [image_url] item whose ["image_url"] is present and is not a dict. *)
Definition malformed_image_url (item : pyval) : bool :=
  match item with
  | PDict d =>
      match PyDict.get d "type" with
      | Some ty =>
          negb (py_eq_str ty "text")
          && py_eq_str ty "image_url"
          && match PyDict.get_default d "image_url" (PDict []) with
             | PDict _ => false
             | _ => true
             end
      | None => false
      end
  | _ => false
  end.

(** A field of a structured content that the loop over it can visit: the key
    is absent, or its value can be iterated. *)
Definition iterable_field (field : option pyval) : bool :=
  match field with
  | None => true
  | Some v =>
      match py_iter v with
      | Ok _ => true
      | Raise _ => false
      end
  end.

(** The role a turn is translated to, when it is translated at all. *)
Definition provider_role_of (m : Message) : list string :=
  match m with
  | SystemMessage _ => []
  | HumanMessage _ => ["user"]
  | AIMessage _ => ["model"]
  end.

(** The contents of the assistant turns, in order. *)
Definition assistant_contents (messages : list Message) : list pyval :=
  flat_map (fun m => match m with AIMessage c => [c] | _ => [] end) messages.

Definition is_model (g : GeminiMessage) : bool := String.eqb (role g) "model".

(** * Properties *)

(** ** Facts about strings *)

Module PyStrFacts.
Import PyStr.

Lemma append_assoc (s t u : string) : (s ++ t) ++ u = s ++ (t ++ u).
Proof.
  induction s as [|c s IH]; simpl; [reflexivity|].
  now rewrite IH.
Qed.

Lemma append_nil_r (s : string) : s ++ "" = s.
Proof.
  induction s as [|c s IH]; simpl; [reflexivity|].
  now rewrite IH.
Qed.

Lemma startswith_Prefix (p s : string) :
  startswith p s = true <-> Prefix p s.
Proof.
  unfold startswith, Prefix.
  revert s; induction p as [|a p IH]; intros s.
  - destruct s; simpl; split; intros _; try reflexivity; eexists; reflexivity.
  - destruct s as [|b s]; simpl.
    + split; [discriminate|]. intros [post H]; discriminate.
    + destruct (ascii_dec a b) as [->|Hab].
      * rewrite IH. split; intros [post H]; exists post.
        -- now rewrite H.
        -- now injection H.
      * split; [discriminate|].
        intros [post H]. injection H as Hb _. now elim Hab.
Qed.

Lemma contains_unfold (sub s : string) :
  contains sub s =
  if startswith sub s then true
  else match s with
       | EmptyString => false
       | String _ s' => contains sub s'
       end.
Proof. destruct s; reflexivity. Qed.

Lemma contains_Substring (sub s : string) :
  contains sub s = true <-> Substring sub s.
Proof.
  split.
  - induction s as [|c s IH]; rewrite contains_unfold;
      destruct (startswith sub _) eqn:Hp.
    + intros _. apply startswith_Prefix in Hp. destruct Hp as [post H].
      exists "", post. exact H.
    + discriminate.
    + intros _. apply startswith_Prefix in Hp. destruct Hp as [post H].
      exists "", post. exact H.
    + intros H. destruct (IH H) as (pre & post & E).
      exists (String c pre), post. simpl. now rewrite E.
  - intros (pre & post & E). subst s.
    induction pre as [|c pre IH]; rewrite contains_unfold.
    + replace (startswith sub ("" ++ sub ++ post)) with true; [reflexivity|].
      symmetry. apply startswith_Prefix. now exists post.
    + change (String c pre ++ sub ++ post) with (String c (pre ++ sub ++ post)).
      cbv beta iota. rewrite IH.
      now destruct (startswith sub (String c (pre ++ sub ++ post))).
Qed.

Lemma contains_false (sub s : string) :
  contains sub s = false <-> ~ Substring sub s.
Proof.
  rewrite <- contains_Substring.
  destruct (contains sub s); split; congruence.
Qed.

Lemma existsb_contains_false (keywords : list string) (s : string) :
  (forall keyword, In keyword keywords -> ~ Substring keyword s) ->
  existsb (fun keyword => contains keyword s) keywords = false.
Proof.
  intros H. induction keywords as [|k ks IH]; simpl; [reflexivity|].
  rewrite (proj2 (contains_false k s)) by (apply H; now left).
  apply IH. intros k' Hk'. apply H. now right.
Qed.

Lemma existsb_contains_true (keywords : list string) (s : string) :
  (exists keyword, In keyword keywords /\ Substring keyword s) ->
  existsb (fun keyword => contains keyword s) keywords = true.
Proof.
  intros (k & Hin & Hsub). apply existsb_exists.
  exists k. split; [exact Hin|]. now apply contains_Substring.
Qed.

End PyStrFacts.

(** ** The generation invoker *)

Lemma fallback_mentions_error (e : exn) :
  PyStr.Substring "Error" (fallback_response e).
Proof.
  exists "", (" with Gemini API: " ++ exn_str e ++ ". Please try again.").
  reflexivity.
Qed.

Lemma fallback_embeds_exception (e : exn) :
  PyStr.Substring (exn_str e) (fallback_response e).
Proof.
  exists "Error with Gemini API: ", ". Please try again.".
  reflexivity.
Qed.

Lemma append_prompt_extends (messages : list Message) (prompt : option string) :
  exists asked, append_prompt messages prompt = (messages ++ asked)%list.
Proof.
  unfold append_prompt.
  destruct prompt as [p|]; [destruct (PyStr.truthy p)|].
  - now exists [HumanMessage (PStr p)].
  - exists []. now rewrite app_nil_r.
  - exists []. now rewrite app_nil_r.
Qed.

Lemma firstn_history (messages more : list Message) :
  firstn (List.length messages) (messages ++ more) = messages.
Proof.
  rewrite firstn_app, Nat.sub_diag, firstn_all. simpl. apply app_nil_r.
Qed.

(** What [next] does once the provider has raised. *)
Lemma next_on_failure (w : World) (self : GeminiAI) (log : TokenUsageLog)
      (messages : list Message) (prompt : option string) (step_name : string)
      (gemini_messages : list GeminiMessage) (e : exn) :
  _convert_messages_to_gemini w (append_prompt messages prompt)
    = Ok gemini_messages ->
  generate_content w (_select_model self (append_prompt messages prompt))
                   gemini_messages = Raise e ->
  next w self log messages prompt step_name
    = (Ok (append_prompt messages prompt
             ++ [AIMessage (PStr (fallback_response e))])%list, log).
Proof.
  intros Hconv Hgen. unfold next. now rewrite Hconv, Hgen.
Qed.

(** What [next] does once the provider has answered. *)
Lemma next_on_success (w : World) (self : GeminiAI) (log : TokenUsageLog)
      (messages : list Message) (prompt : option string) (step_name : string)
      (gemini_messages : list GeminiMessage) (response : string) :
  _convert_messages_to_gemini w (append_prompt messages prompt)
    = Ok gemini_messages ->
  generate_content w (_select_model self (append_prompt messages prompt))
                   gemini_messages = Ok response ->
  let answer := _handle_generation_requests w self response step_name in
  next w self log messages prompt step_name
    = (Ok (append_prompt messages prompt ++ [AIMessage (PStr answer)])%list,
       update_log w log (append_prompt messages prompt) answer step_name).
Proof.
  intros Hconv Hgen. unfold next. now rewrite Hconv, Hgen.
Qed.

Lemma update_log_adds_entry (w : World) (log : TokenUsageLog)
      (messages : list Message) (answer step_name : string) :
  List.length (usage_entries (update_log w log messages answer step_name))
  = S (List.length (usage_entries log)).
Proof.
  unfold update_log. simpl. rewrite length_app. simpl. lia.
Qed.

(** C1.  When the provider call made by [next] raises, [next] itself does
    not raise: it returns the conversation it sent (the history, with the
    prompt turn when a prompt was passed) followed by exactly one assistant
    turn.  That turn's text contains "Error" and the text of the exception,
    and the turns of the history are the first turns of the result, as they
    were. *)
Theorem next_provider_failure_yields_fallback_turn
        (w : World) (self : GeminiAI) (log : TokenUsageLog)
        (messages : list Message) (prompt : option string)
        (step_name : string)
        (gemini_messages : list GeminiMessage) (e : exn) :
  _convert_messages_to_gemini w (append_prompt messages prompt)
    = Ok gemini_messages ->
  generate_content w (_select_model self (append_prompt messages prompt))
                   gemini_messages = Raise e ->
  exists text out,
    fst (next w self log messages prompt step_name) = Ok out /\
    out = (append_prompt messages prompt ++ [AIMessage (PStr text)])%list /\
    (prompt = None -> out = (messages ++ [AIMessage (PStr text)])%list) /\
    firstn (List.length messages) out = messages /\
    PyStr.Substring "Error" text /\
    PyStr.Substring (exn_str e) text.
Proof.
  intros Hconv Hgen.
  exists (fallback_response e).
  eexists.
  rewrite (next_on_failure w self log messages prompt step_name _ _ Hconv Hgen).
  simpl.
  split; [reflexivity|]. split; [reflexivity|].
  split; [now intros ->|].
  split.
  - destruct (append_prompt_extends messages prompt) as [asked ->].
    rewrite <- app_assoc. apply firstn_history.
  - split; [apply fallback_mentions_error | apply fallback_embeds_exception].
Qed.

Lemma next_failure_scenario :
  exists text out,
    fst (next Offline.world Offline.adapter Offline.empty_log
              Offline.scenario None "codegen") = Ok out /\
    out = [SystemMessage (PStr "You write code");
           HumanMessage (PStr "Create a calculator");
           AIMessage (PStr text)] /\
    (@None string = None ->
     out = (Offline.scenario ++ [AIMessage (PStr text)])%list) /\
    firstn 2 out = Offline.scenario /\
    PyStr.Substring "Error" text /\
    PyStr.Substring "503 model unavailable" text.
Proof.
  exact (next_provider_failure_yields_fallback_turn
           Offline.world Offline.adapter Offline.empty_log
           Offline.scenario None "codegen"
           [mkGeminiMessage "user"
              [PStr (system_prefix Offline.world (PStr "You write code")
                       ++ "Create a calculator")]]
           Offline.unreachable eq_refl eq_refl).
Defined.

(** C8.  When the provider call made by [next] raises, the usage log after
    the call is the usage log before it: no entry is added and both running
    totals keep their values.  Conversely the log differs after a call only
    if the conversation was translated and the provider answered. *)
Theorem next_updates_usage_log_only_on_success
        (w : World) (self : GeminiAI) (log : TokenUsageLog)
        (messages : list Message) (prompt : option string)
        (step_name : string) :
  (forall gemini_messages e,
      _convert_messages_to_gemini w (append_prompt messages prompt)
        = Ok gemini_messages ->
      generate_content w (_select_model self (append_prompt messages prompt))
                       gemini_messages = Raise e ->
      snd (next w self log messages prompt step_name) = log /\
      usage_entries (snd (next w self log messages prompt step_name))
        = usage_entries log /\
      cumulative_prompt_tokens (snd (next w self log messages prompt step_name))
        = cumulative_prompt_tokens log /\
      cumulative_completion_tokens
        (snd (next w self log messages prompt step_name))
        = cumulative_completion_tokens log) /\
  (snd (next w self log messages prompt step_name) <> log ->
   exists gemini_messages response,
     _convert_messages_to_gemini w (append_prompt messages prompt)
       = Ok gemini_messages /\
     generate_content w (_select_model self (append_prompt messages prompt))
                      gemini_messages = Ok response).
Proof.
  split.
  - intros gms e Hconv Hgen.
    rewrite (next_on_failure w self log messages prompt step_name _ _ Hconv Hgen).
    simpl. repeat split.
  - intros Hchanged.
    destruct (_convert_messages_to_gemini w (append_prompt messages prompt))
      as [gms|e] eqn:Hconv.
    + destruct (generate_content
                  w (_select_model self (append_prompt messages prompt)) gms)
        as [response|e] eqn:Hgen.
      * now exists gms, response.
      * rewrite (next_on_failure w self log messages prompt step_name _ _
                                 Hconv Hgen) in Hchanged.
        now elim Hchanged.
    + unfold next in Hchanged. rewrite Hconv in Hchanged. now elim Hchanged.
Qed.

Lemma next_failure_scenario_keeps_log :
  snd (next Offline.world Offline.adapter Offline.used_log
            Offline.scenario (Some "Add tests") "codegen")
  = Offline.used_log.
Proof.
  exact (proj1
           (proj1 (next_updates_usage_log_only_on_success
                     Offline.world Offline.adapter Offline.used_log
                     Offline.scenario (Some "Add tests") "codegen")
                  [mkGeminiMessage "user"
                     [PStr (system_prefix Offline.world (PStr "You write code")
                              ++ "Create a calculator")];
                   mkGeminiMessage "user" [PStr "Add tests"]]
                  Offline.unreachable eq_refl eq_refl)).
Defined.

(** On the success path the log does change: one entry more. *)
Lemma next_success_records_usage
      (w : World) (self : GeminiAI) (log : TokenUsageLog)
      (messages : list Message) (prompt : option string) (step_name : string)
      (gemini_messages : list GeminiMessage) (response : string) :
  _convert_messages_to_gemini w (append_prompt messages prompt)
    = Ok gemini_messages ->
  generate_content w (_select_model self (append_prompt messages prompt))
                   gemini_messages = Ok response ->
  List.length (usage_entries (snd (next w self log messages prompt step_name)))
  = S (List.length (usage_entries log)).
Proof.
  intros Hconv Hgen.
  rewrite (next_on_success w self log messages prompt step_name _ _ Hconv Hgen).
  apply update_log_adds_entry.
Qed.

(** ** Conversation translation *)

Lemma bind_Ok {A B : Type} (r : result A) (k : A -> result B) (b : B) :
  bind r k = Ok b -> exists a, r = Ok a /\ k a = Ok b.
Proof.
  destruct r as [a|e]; simpl; [|discriminate].
  intros H. now exists a.
Qed.

Ltac bind_inv H :=
  let a := fresh "a" in
  let E := fresh "E" in
  apply bind_Ok in H; destruct H as (a & E & H).

Lemma first_system_hd (messages : list Message) :
  first_system messages = hd_error (system_texts messages).
Proof.
  induction messages as [|m rest IH]; [reflexivity|].
  destruct m; simpl; auto.
Qed.

Lemma convert_pass_roles (w : World) (messages : list Message) :
  forall gs, convert_pass w messages = Ok gs -> Forall provider_role gs.
Proof.
  induction messages as [|m rest IH]; simpl; intros gs H.
  - injection H as <-. constructor.
  - destruct m as [c|c|c].
    + now apply IH.
    + bind_inv H. bind_inv H. injection H as <-.
      constructor; [now left | now apply IH].
    + bind_inv H. injection H as <-.
      constructor; [now right | now apply IH].
Qed.

Lemma prepend_system_roles (system_content : string) (gs : list GeminiMessage) :
  forall gs', prepend_system system_content gs = Ok gs' ->
              map role gs' = map role gs.
Proof.
  induction gs as [|g rest IH]; simpl; intros gs' H.
  - now injection H as <-.
  - destruct (String.eqb (role g) "user").
    + destruct (parts g) as [|[| | |t| | |] ps]; try discriminate;
        now injection H as <-.
    + bind_inv H. injection H as <-. simpl. f_equal. now apply IH.
Qed.

Lemma convert_roles (w : World) (messages : list Message) :
  forall out, _convert_messages_to_gemini w messages = Ok out ->
              Forall provider_role out.
Proof.
  unfold _convert_messages_to_gemini. intros out H. bind_inv H.
  apply convert_pass_roles in E.
  destruct (first_system messages) as [s|].
  - apply prepend_system_roles in H.
    unfold provider_role in *. rewrite Forall_forall in *.
    intros g Hg. apply (in_map role) in Hg. rewrite H in Hg.
    apply in_map_iff in Hg. destruct Hg as (g0 & Hrole & Hg0).
    rewrite <- Hrole. now apply E.
  - now injection H as <-.
Qed.

(** The main pass puts the first user turn behind assistant turns only. *)
Lemma convert_pass_first_human (w : World) (messages : list Message) :
  forall c plain,
    first_human messages = Some c ->
    convert_pass w messages = Ok plain ->
    exists c' before after,
      _process_multimodal_content w c = Ok c' /\
      plain = (before ++ mkGeminiMessage "user" (as_parts c') :: after)%list /\
      Forall (fun g => role g = "model") before.
Proof.
  induction messages as [|m rest IH]; simpl; intros c plain Hc H;
    [discriminate|].
  destruct m as [c0|c0|c0].
  - now apply IH.
  - injection Hc as ->. bind_inv H. bind_inv H. injection H as <-.
    exists a, [], a0. repeat split; [exact E | constructor].
  - bind_inv H. injection H as <-.
    destruct (IH c a Hc E) as (c' & before & after & Hp & -> & Hb).
    exists c', (mkGeminiMessage "model" [c0] :: before), after.
    repeat split; [exact Hp | now constructor].
Qed.

Lemma prepend_system_first_user (system_content : string)
      (before after : list GeminiMessage) (ps : list pyval) :
  Forall (fun g => role g = "model") before ->
  prepend_system system_content
                 (before ++ mkGeminiMessage "user" ps :: after)
  = match ps with
    | [] => Raise IndexError_list
    | PStr t :: qs =>
        Ok (before
              ++ mkGeminiMessage "user" (PStr (system_content ++ t) :: qs)
              :: after)%list
    | _ :: _ => Ok (before ++ mkGeminiMessage "user" ps :: after)%list
    end.
Proof.
  induction before as [|g before IH]; intros Hb.
  - simpl. destruct ps as [|[| | |t| | |] qs]; reflexivity.
  - inversion Hb as [|? ? Hg Hrest]; subst. simpl. rewrite Hg. simpl.
    rewrite (IH Hrest).
    destruct ps as [|[| | |t| | |] qs]; reflexivity.
Qed.

(** C2, as stated, fails: one system turn and one user turn, whose first
    text part is "hi", and the translation leaves that text part without the
    system prefix, because the part in front of it is not text. *)
Lemma convert_leaves_text_after_media_unprefixed :
  system_texts image_then_text = [PStr "Be brief"] /\
  first_human image_then_text <> None /\
  exists g,
    _convert_messages_to_gemini Offline.world image_then_text = Ok [g] /\
    role g = "user" /\
    first_text (parts g) = Some "hi" /\
    first_text (parts g)
      <> Some (system_prefix Offline.world (PStr "Be brief") ++ "hi").
Proof.
  split; [reflexivity|]. split; [discriminate|].
  eexists. split; [reflexivity|]. simpl.
  split; [reflexivity|]. split; [reflexivity|]. discriminate.
Qed.

(** C2, amended.  Take a conversation with exactly one system turn, of text
    S, and at least one user turn, all of whose user turns normalise.  The
    main pass puts the first user turn, with its normalised parts, behind
    assistant entries only.  If those parts begin with a text part, the
    translation is the main pass with "System: S\n\nUser: " put in front of
    that first part; if they begin with any other part, the translation is
    the main pass unchanged.  Whatever the translation returns has only the
    roles "user" and "model". *)
Theorem convert_folds_system_into_leading_text
        (w : World) (messages : list Message) (system_text c : pyval)
        (plain : list GeminiMessage) :
  system_texts messages = [system_text] ->
  first_human messages = Some c ->
  convert_pass w messages = Ok plain ->
  exists c' before after,
    _process_multimodal_content w c = Ok c' /\
    plain = (before ++ mkGeminiMessage "user" (as_parts c') :: after)%list /\
    Forall (fun g => role g = "model") before /\
    (forall t ps,
        as_parts c' = PStr t :: ps ->
        _convert_messages_to_gemini w messages
        = Ok (before
                ++ mkGeminiMessage "user" (PStr (system_prefix w system_text ++ t) :: ps)
                :: after)%list) /\
    (forall p ps,
        as_parts c' = p :: ps -> is_str p = false ->
        _convert_messages_to_gemini w messages = Ok plain) /\
    (forall out,
        _convert_messages_to_gemini w messages = Ok out ->
        Forall provider_role out).
Proof.
  intros HS Hc Hplain.
  destruct (convert_pass_first_human w messages c plain Hc Hplain)
    as (c' & before & after & Hp & Hsplit & Hb).
  exists c', before, after.
  assert (Hconv : _convert_messages_to_gemini w messages
                  = prepend_system (system_prefix w system_text) plain).
  { unfold _convert_messages_to_gemini. rewrite Hplain. simpl.
    now rewrite first_system_hd, HS. }
  repeat split; try assumption.
  - intros t ps Hparts. rewrite Hconv, Hsplit, Hparts.
    now rewrite prepend_system_first_user.
  - intros p ps Hparts Hp0. rewrite Hconv, Hsplit, Hparts.
    rewrite prepend_system_first_user by assumption.
    destruct p; try reflexivity. discriminate.
  - apply convert_roles.
Qed.

Lemma convert_scenario_folds_system :
  exists c' before after,
    _process_multimodal_content Offline.world (PStr "Create a calculator")
      = Ok c' /\
    [mkGeminiMessage "user" [PStr "Create a calculator"]]
      = (before ++ mkGeminiMessage "user" (as_parts c') :: after)%list /\
    Forall (fun g => role g = "model") before /\
    (forall t ps,
        as_parts c' = PStr t :: ps ->
        _convert_messages_to_gemini Offline.world Offline.scenario
        = Ok (before
                ++ mkGeminiMessage "user"
                     (PStr (system_prefix Offline.world (PStr "You write code")
                              ++ t) :: ps)
                :: after)%list) /\
    (forall p ps,
        as_parts c' = p :: ps -> is_str p = false ->
        _convert_messages_to_gemini Offline.world Offline.scenario
        = Ok [mkGeminiMessage "user" [PStr "Create a calculator"]]) /\
    (forall out,
        _convert_messages_to_gemini Offline.world Offline.scenario = Ok out ->
        Forall provider_role out).
Proof.
  exact (convert_folds_system_into_leading_text
           Offline.world Offline.scenario
           (PStr "You write code") (PStr "Create a calculator")
           [mkGeminiMessage "user" [PStr "Create a calculator"]]
           eq_refl eq_refl eq_refl).
Defined.

(** A first user turn that normalises to no part at all stops the
    translation: reading its first part raises. *)
Lemma convert_empty_first_user_raises (w : World) :
  _convert_messages_to_gemini
    w [SystemMessage (PStr "Be brief"); HumanMessage (PList [])]
  = Raise IndexError_list.
Proof. reflexivity. Qed.

(** ** Content normalisation *)

Lemma process_items_app (w : World) (xs ys : list pyval) :
  process_items w (xs ++ ys)
  = (ps <- process_items w xs ;;
     qs <- process_items w ys ;;
     Ok (ps ++ qs)%list).
Proof.
  induction xs as [|x xs IH]; simpl.
  - destruct (process_items w ys); reflexivity.
  - destruct (process_item w x) as [p|e]; simpl; [|reflexivity].
    rewrite IH.
    destruct (process_items w xs) as [ps|e]; simpl; [|reflexivity].
    destruct (process_items w ys) as [qs|e]; simpl; [|reflexivity].
    now rewrite app_assoc.
Qed.

(** A dict item whose ["type"] is neither ["text"] nor ["image_url"] adds
    no part. *)
Lemma process_item_other_type (w : World) (d : list (string * pyval))
      (ty : pyval) :
  PyDict.get d "type" = Some ty ->
  py_eq_str ty "text" = false ->
  py_eq_str ty "image_url" = false ->
  process_item w (PDict d) = Ok [].
Proof.
  intros Hty Ht Hi. unfold process_item. now rewrite Hty, Ht, Hi.
Qed.

Lemma process_item_one_part (w : World) (item : pyval) :
  yields_one_part item = true ->
  exists p, process_item w item = Ok [p].
Proof.
  unfold yields_one_part, process_item.
  destruct item as [| | | | | |d]; try (intros _; eexists; reflexivity).
  destruct (PyDict.get d "type") as [ty|]; [|intros _; eexists; reflexivity].
  destruct (py_eq_str ty "text"); simpl; [intros _; eexists; reflexivity|].
  destruct (py_eq_str ty "image_url"); simpl; [|discriminate].
  destruct (PyDict.get_default d "image_url" (PDict []));
    try discriminate.
  intros _. eexists. reflexivity.
Qed.

Lemma process_items_one_part_each (w : World) (items : list pyval) :
  forallb yields_one_part items = true ->
  exists ps, process_items w items = Ok ps /\
             List.length ps = List.length items.
Proof.
  induction items as [|item rest IH]; simpl; intros H.
  - now exists [].
  - apply andb_prop in H. destruct H as [H1 H2].
    destruct (process_item_one_part w item H1) as [p ->].
    destruct (IH H2) as (ps & -> & Hlen).
    exists (p :: ps). simpl. now rewrite Hlen.
Qed.

(** C3.  The claim asks for one output part per input item.  On a list
    whose middle item has the discriminator "video" the normaliser returns
    two parts for three items: the video item, which the model selector
    counts as visual content, leaves no part behind. *)
Theorem process_multimodal_content_drops_video_item (w : World) :
  _process_multimodal_content w text_video_text
    = Ok (PList [PStr "before"; PStr "after"]) /\
  _contains_visual_content text_video_text = true /\
  (forall ps,
      _process_multimodal_content w text_video_text = Ok (PList ps) ->
      List.length ps <> 3).
Proof.
  split; [reflexivity|]. split; [reflexivity|].
  intros ps H. cbv in H. injection H as <-. discriminate.
Qed.

(** C10.  A list item whose ["type"] is ["text"] and which has no ["text"]
    key contributes the empty string as its part, wherever it stands in the
    list: the parts of the items before it, then [""], then the parts of
    the items after it. *)
Theorem process_text_item_without_text_yields_empty
        (w : World) (d : list (string * pyval))
        (before after : list pyval) (ps qs : list pyval) :
  PyDict.get d "type" = Some (PStr "text") ->
  PyDict.get d "text" = None ->
  process_items w before = Ok ps ->
  process_items w after = Ok qs ->
  process_item w (PDict d) = Ok [PStr ""] /\
  _process_multimodal_content w (PList (before ++ PDict d :: after))
  = Ok (PList (ps ++ PStr "" :: qs)).
Proof.
  intros Hty Htext Hb Ha.
  assert (Hitem : process_item w (PDict d) = Ok [PStr ""]).
  { unfold process_item, PyDict.get_default. now rewrite Hty, Htext. }
  split; [exact Hitem|].
  unfold _process_multimodal_content.
  rewrite process_items_app, Hb. cbn [process_items bind].
  now rewrite Hitem, Ha.
Qed.

Lemma process_bare_text_item_yields_empty :
  process_item Offline.world (PDict [("type", PStr "text")]) = Ok [PStr ""] /\
  _process_multimodal_content
    Offline.world
    (PList ([PStr "see"] ++ PDict [("type", PStr "text")] :: [PInt 7%Z]))
  = Ok (PList ([PStr "see"] ++ PStr "" :: [PStr "7"])).
Proof.
  exact (process_text_item_without_text_yields_empty
           Offline.world [("type", PStr "text")] [PStr "see"] [PInt 7%Z]
           [PStr "see"] [PStr "7"] eq_refl eq_refl eq_refl eq_refl).
Defined.

(** ** Media resolution *)

Lemma placeholder_holds_reference (opening reference : string) :
  PyStr.Substring reference (opening ++ reference ++ "]").
Proof. now exists opening, "]". Qed.

(** C4, as stated, fails: a failed fetch is reported as
    "[Image URL: <reference>]", which is not "[Image: <reference>]". *)
Lemma failed_fetch_placeholder_says_image_url :
  requests_get Offline.world (PStr "http://example.invalid/a.png") = None /\
  _load_image_from_url Offline.world (PStr "http://example.invalid/a.png")
    = text_part "[Image URL: http://example.invalid/a.png]" /\
  _load_image Offline.world (PStr "http://example.invalid/a.png")
    = text_part "[Image URL: http://example.invalid/a.png]" /\
  _load_image Offline.world (PStr "http://example.invalid/a.png")
    <> text_part "[Image: http://example.invalid/a.png]".
Proof.
  repeat split. discriminate.
Qed.

(** For a local reference the placeholder shows the path as the path
    library renders it, which need not contain the reference as written. *)
Lemma missing_file_placeholder_renders_path :
  _load_image Offline.world (PStr "./missing.png")
    = text_part "[Image: missing.png]" /\
  _load_video Offline.world (PStr "clips//intro.mp4")
    = text_part "[Video: clips/intro.mp4]" /\
  PyStr.contains "./missing.png" "[Image: missing.png]" = false.
Proof. repeat split. Qed.

(** C4, amended.  The three loaders are total: none of them raises.  When
    the fetch of a reference fails, [_load_image_from_url], and
    [_load_image] on an http(s) reference, return the text part
    "[Image URL: <reference>]".  When a local reference does not exist or
    cannot be read, [_load_image] returns "[Image: <path>]" and
    [_load_video] returns "[Video: <path>]", where <path> is the reference
    as the path library renders it.  Each placeholder contains the text put
    between its brackets, which is the literal reference for a fetch and for
    a path the library renders unchanged. *)
Theorem media_resolution_failure_yields_placeholder
        (w : World) (reference : string) :
  (requests_get w (PStr reference) = None ->
   _load_image_from_url w (PStr reference)
     = text_part ("[Image URL: " ++ reference ++ "]") /\
   (PyStr.startswith_any ["http://"; "https://"] reference = true ->
    _load_image w (PStr reference)
      = text_part ("[Image URL: " ++ reference ++ "]")) /\
   PyStr.Substring reference ("[Image URL: " ++ reference ++ "]")) /\
  (path_exists w reference = false \/ read_bytes w reference = None ->
   (PyStr.startswith_any ["http://"; "https://"] reference = false ->
    _load_image w (PStr reference)
      = text_part ("[Image: " ++ path_str w reference ++ "]")) /\
   _load_video w (PStr reference)
     = text_part ("[Video: " ++ path_str w reference ++ "]") /\
   (path_str w reference = reference ->
    PyStr.Substring reference ("[Image: " ++ path_str w reference ++ "]") /\
    PyStr.Substring reference ("[Video: " ++ path_str w reference ++ "]"))).
Proof.
  split.
  - intros Hget.
    assert (Hurl : _load_image_from_url w (PStr reference)
                   = text_part ("[Image URL: " ++ reference ++ "]")).
    { unfold _load_image_from_url. now rewrite Hget. }
    split; [exact Hurl|]. split.
    + intros Hhttp. unfold _load_image. now rewrite Hhttp.
    + apply placeholder_holds_reference.
  - intros Hunread. split; [|split].
    + intros Hlocal. unfold _load_image. rewrite Hlocal.
      destruct Hunread as [-> | Hread]; [reflexivity|].
      rewrite Hread. now destruct (path_exists w reference).
    + unfold _load_video.
      destruct Hunread as [-> | Hread]; [reflexivity|].
      rewrite Hread. now destruct (path_exists w reference).
    + intros ->. split; apply placeholder_holds_reference.
Qed.

Lemma media_resolution_offline :
  _load_image_from_url Offline.world (PStr "missing.png")
    = text_part "[Image URL: missing.png]" /\
  _load_image Offline.world (PStr "missing.png")
    = text_part "[Image: missing.png]" /\
  _load_video Offline.world (PStr "missing.png")
    = text_part "[Video: missing.png]" /\
  PyStr.Substring "missing.png" "[Image: missing.png]".
Proof.
  destruct (media_resolution_failure_yields_placeholder
              Offline.world "missing.png") as [Hfetch Hlocal].
  destruct (Hfetch eq_refl) as (Hurl & _ & _).
  destruct (Hlocal (or_introl eq_refl)) as (Himage & Hvideo & Hsub).
  split; [exact Hurl|].
  split; [exact (Himage eq_refl)|].
  split; [exact Hvideo|].
  exact (proj1 (Hsub eq_refl)).
Defined.

(** ** Model selection *)

Lemma mem_true (d : list (string * pyval)) (k : string) :
  PyDict.mem d k = true <-> PyDict.get d k <> None.
Proof.
  unfold PyDict.mem. destruct (PyDict.get d k); split; congruence.
Qed.

Lemma py_eq_str_true (v : pyval) (s : string) :
  py_eq_str v s = true <-> v = PStr s.
Proof.
  destruct v; simpl; try (split; [discriminate | congruence]).
  rewrite String.eqb_eq. split; congruence.
Qed.

Lemma visual_item_true (item : pyval) :
  visual_item item = true <->
  exists d ty, item = PDict d /\ PyDict.get d "type" = Some (PStr ty) /\
               (ty = "image_url" \/ ty = "image" \/ ty = "video").
Proof.
  split.
  - destruct item as [| | | | | |d]; unfold visual_item; try discriminate.
    destruct (PyDict.get d "type") as [v|] eqn:Hty; [|discriminate].
    unfold visual_types. cbn [existsb].
    rewrite !orb_true_iff, !py_eq_str_true.
    intros [Hv | [Hv | [Hv | Hv]]]; try discriminate; subst v;
      exists d; eexists; (split; [reflexivity|]); (split; [exact Hty|]); auto.
  - intros (d & ty & -> & Hty & Hcase). unfold visual_item. rewrite Hty.
    destruct Hcase as [-> | [-> | ->]]; reflexivity.
Qed.

Lemma contains_visual_content_true (c : pyval) :
  is_dict_or_list c && _contains_visual_content c = true <->
  visual_indicator c.
Proof.
  unfold visual_indicator. split.
  - destruct c as [| | | | |items|d];
      unfold is_dict_or_list, _contains_visual_content;
      rewrite ?andb_true_l; try discriminate.
    + intros H. right. apply existsb_exists in H.
      destruct H as (item & Hin & Hv).
      apply visual_item_true in Hv. destruct Hv as (d & ty & -> & Hty & Hc).
      now exists items, d, ty.
    + rewrite orb_true_iff, !mem_true. intros H. left. now exists d.
  - intros [(d & -> & H) | (items & d & ty & -> & Hin & Hty & Hc)];
      unfold is_dict_or_list, _contains_visual_content; rewrite andb_true_l.
    + now rewrite orb_true_iff, !mem_true.
    + apply existsb_exists. exists (PDict d). split; [exact Hin|].
      apply visual_item_true. now exists d, ty.
Qed.

Lemma has_images_true (messages : list Message) :
  existsb (fun msg => is_dict_or_list (content msg)
                      && _contains_visual_content (content msg))
          messages = true
  <-> carries_visual_content messages.
Proof.
  unfold carries_visual_content. rewrite existsb_exists.
  split; intros (m & Hin & H); exists m; (split; [exact Hin|]);
    now apply contains_visual_content_true.
Qed.

(** C5.  If some turn carries visual content or the multimodal flag is on,
    [_select_model] returns the multimodal model when the model name
    contains "1.5" and the vision model when it does not; if no turn
    carries visual content and the flag is off it returns the text model. *)
Theorem select_model_follows_rule (self : GeminiAI) (messages : list Message) :
  (carries_visual_content messages \/ enable_multimodal self = true ->
   (PyStr.Substring "1.5" (model_name self) ->
    _select_model self messages = multimodal_model) /\
   (~ PyStr.Substring "1.5" (model_name self) ->
    _select_model self messages = vision_model)) /\
  (~ carries_visual_content messages /\ enable_multimodal self = false ->
   _select_model self messages = text_model).
Proof.
  unfold _select_model. split.
  - intros Hdemand.
    assert (Hb : existsb (fun msg => is_dict_or_list (content msg)
                                     && _contains_visual_content (content msg))
                         messages
                 || enable_multimodal self = true).
    { apply orb_true_iff.
      destruct Hdemand as [H | H]; [left; now apply has_images_true | now right]. }
    rewrite Hb. split; intros Hname.
    + apply PyStrFacts.contains_Substring in Hname. now rewrite Hname.
    + apply PyStrFacts.contains_false in Hname. now rewrite Hname.
  - intros [Hnone Hflag]. rewrite Hflag.
    destruct (existsb _ messages) eqn:Hb; [|reflexivity].
    apply has_images_true in Hb. now elim Hnone.
Qed.

Lemma images_turn_is_visual : carries_visual_content images_turn.
Proof.
  exists (HumanMessage (PDict [("images", PList [PStr "a.png"])])).
  split; [now left|].
  left. exists [("images", PList [PStr "a.png"])].
  split; [reflexivity|]. left. discriminate.
Defined.

Lemma text_only_turns_not_visual : ~ carries_visual_content text_only_turns.
Proof.
  intros H. apply has_images_true in H. discriminate.
Defined.

Lemma select_model_scenarios :
  _select_model (GeminiAI_init "gemini-1.5-pro" true true false) images_turn
    = multimodal_model /\
  _select_model (GeminiAI_init "gemini-pro" true true false) images_turn
    = vision_model /\
  _select_model (GeminiAI_init "gemini-pro" true true false) text_only_turns
    = text_model.
Proof.
  split; [|split].
  - apply (select_model_follows_rule
             (GeminiAI_init "gemini-1.5-pro" true true false) images_turn).
    + left. exact images_turn_is_visual.
    + exists "gemini-", "-pro". reflexivity.
  - apply (select_model_follows_rule
             (GeminiAI_init "gemini-pro" true true false) images_turn).
    + left. exact images_turn_is_visual.
    + apply PyStrFacts.contains_false. reflexivity.
  - apply (select_model_follows_rule
             (GeminiAI_init "gemini-pro" true true false) text_only_turns).
    split; [exact text_only_turns_not_visual | reflexivity].
Defined.

(** ** The secondary-asset trigger *)

Lemma fold_add_image_line (paths : list string) :
  forall acc, fold_left add_image_line paths acc
              = acc ++ lines_of image_line paths.
Proof.
  induction paths as [|p paths IH]; intros acc; simpl.
  - now rewrite PyStrFacts.append_nil_r.
  - rewrite IH. unfold add_image_line, image_line.
    now rewrite !PyStrFacts.append_assoc.
Qed.

Lemma fold_add_video_line (paths : list string) :
  forall acc, fold_left add_video_line paths acc
              = acc ++ lines_of video_line paths.
Proof.
  induction paths as [|p paths IH]; intros acc; simpl.
  - now rewrite PyStrFacts.append_nil_r.
  - rewrite IH. unfold add_video_line, video_line.
    now rewrite !PyStrFacts.append_assoc.
Qed.

(** The trigger only appends: first what the image check adds, then what
    the video check adds. *)
Lemma handle_generation_requests_appends
      (w : World) (self : GeminiAI) (response step_name : string) :
  _handle_generation_requests w self response step_name
  = response ++ images_added w self response step_name
             ++ videos_added w self response step_name.
Proof.
  unfold _handle_generation_requests, images_added, videos_added.
  destruct (enable_image_generation self && _should_generate_images w response);
    destruct (enable_video_generation self && _should_generate_videos w response);
    destruct (generate_images_from_response self response step_name)
      as [|img imgs];
    destruct (generate_videos_from_response self response step_name)
      as [|vid vids];
    unfold generated_section;
    rewrite ?fold_add_image_line, ?fold_add_video_line;
    rewrite ?PyStrFacts.append_assoc, ?PyStrFacts.append_nil_r;
    reflexivity.
Qed.

(** C6, as stated, fails: image generation is on and the text contains
    "diagram", the generator is called and returns no path, and the text
    comes back as it was, without a "## Generated Images" section. *)
Lemma diagram_response_gets_no_images_section :
  enable_image_generation Offline.adapter = true /\
  _should_generate_images Offline.world diagram_response = true /\
  generate_images_from_response Offline.adapter diagram_response "codegen"
    = [] /\
  _handle_generation_requests Offline.world Offline.adapter
                              diagram_response "codegen"
    = diagram_response /\
  PyStr.contains "## Generated Images"
                 (_handle_generation_requests Offline.world Offline.adapter
                                              diagram_response "codegen")
    = false.
Proof. repeat split. Qed.

(** C6, amended.  When image generation is enabled and the lower-cased
    response contains one of the image phrases, the trigger calls the image
    generator; if it returns at least one path, the header
    "## Generated Images" and one markdown image line per returned path, in
    order, are appended to the response; if it returns no path, nothing is
    appended for images.  What the video check adds comes after. *)
Theorem handle_generation_requests_image_section
        (w : World) (self : GeminiAI) (response step_name : string) :
  enable_image_generation self = true ->
  (exists keyword, In keyword image_keywords /\
                   PyStr.Substring keyword (str_lower w response)) ->
  (forall img_path rest,
      generate_images_from_response self response step_name
        = img_path :: rest ->
      _handle_generation_requests w self response step_name
      = response ++ images_header
                 ++ lines_of image_line (img_path :: rest)
                 ++ videos_added w self response step_name) /\
  (generate_images_from_response self response step_name = [] ->
   _handle_generation_requests w self response step_name
   = response ++ videos_added w self response step_name).
Proof.
  intros Hflag Hkw.
  assert (Himg : images_added w self response step_name
                 = generated_section
                     images_header image_line
                     (generate_images_from_response self response step_name)).
  { unfold images_added, _should_generate_images.
    now rewrite Hflag, (PyStrFacts.existsb_contains_true _ _ Hkw). }
  rewrite handle_generation_requests_appends, Himg.
  split.
  - intros img_path rest ->. unfold generated_section.
    now rewrite PyStrFacts.append_assoc.
  - now intros ->.
Qed.

Lemma diagram_response_gets_section_when_paths_return :
  _handle_generation_requests Offline.world Offline.illustrating
                              diagram_response "codegen"
  = diagram_response
      ++ images_header
      ++ lines_of image_line ["generated_assets/codegen/diagram.png"]
      ++ "".
Proof.
  exact (proj1 (handle_generation_requests_image_section
                  Offline.world Offline.illustrating diagram_response "codegen"
                  eq_refl
                  (ex_intro _ "diagram"
                     (conj (or_intror (or_intror (or_intror (or_intror
                              (or_intror (or_introl eq_refl))))))
                           (ex_intro _ "here is a "
                              (ex_intro _ " of the architecture" eq_refl)))))
               "generated_assets/codegen/diagram.png" [] eq_refl).
Defined.

(** C7.  A response whose lower-cased text contains none of the image
    phrases and none of the video phrases is returned as it is, whatever the
    flags and the generators. *)
Theorem handle_generation_requests_identity_without_phrases
        (w : World) (self : GeminiAI) (response step_name : string) :
  (forall keyword, In keyword image_keywords ->
                   ~ PyStr.Substring keyword (str_lower w response)) ->
  (forall keyword, In keyword video_keywords ->
                   ~ PyStr.Substring keyword (str_lower w response)) ->
  _handle_generation_requests w self response step_name = response.
Proof.
  intros Himg Hvid.
  rewrite handle_generation_requests_appends.
  unfold images_added, videos_added,
    _should_generate_images, _should_generate_videos.
  rewrite (PyStrFacts.existsb_contains_false _ _ Himg).
  rewrite (PyStrFacts.existsb_contains_false _ _ Hvid).
  rewrite !andb_false_r. simpl.
  now rewrite PyStrFacts.append_nil_r.
Qed.

Ltac no_phrase :=
  let k := fresh "keyword" in
  let H := fresh "Hin" in
  intros k H; apply PyStrFacts.contains_false;
  simpl in H;
  repeat (destruct H as [<- | H]; [reflexivity|]);
  contradiction.

Lemma plain_response_is_returned_unchanged :
  _handle_generation_requests Offline.world Offline.illustrating
                              "All tests pass." "codegen"
  = "All tests pass.".
Proof.
  apply (handle_generation_requests_identity_without_phrases
           Offline.world Offline.illustrating "All tests pass." "codegen");
    no_phrase.
Defined.

(** C9.  Whatever the response, the step label, the flags and the
    generators, the text the trigger returns begins with the response. *)
Theorem handle_generation_requests_keeps_response_as_prefix
        (w : World) (self : GeminiAI) (response step_name : string) :
  PyStr.Prefix response
               (_handle_generation_requests w self response step_name) /\
  PyStr.startswith response
                   (_handle_generation_requests w self response step_name)
  = true.
Proof.
  assert (H : PyStr.Prefix
                response
                (_handle_generation_requests w self response step_name)).
  { rewrite handle_generation_requests_appends.
    now exists (images_added w self response step_name
                  ++ videos_added w self response step_name). }
  split; [exact H | now apply PyStrFacts.startswith_Prefix].
Qed.


(** * Further properties *)

(** ** Content normalisation *)

Lemma loaders_return_no_str (w : World) (v : pyval) :
  is_str (_load_image_from_url w v) = false /\
  is_str (_load_image w v) = false /\
  is_str (_load_video w v) = false.
Proof.
  unfold _load_image, _load_video, _load_image_from_url.
  repeat split.
  - now destruct (requests_get w v).
  - destruct v as [| | |p| | |]; try reflexivity.
    destruct (PyStr.startswith_any _ p);
      [now destruct (requests_get w (PStr p))|].
    destruct (path_exists w p); [|reflexivity].
    now destruct (read_bytes w p).
  - destruct v as [| | |p| | |]; try reflexivity.
    destruct (path_exists w p); [|reflexivity].
    now destruct (read_bytes w p).
Qed.

(** X1.  A structured content that has a text and neither an images nor a
    videos key normalises to exactly one part, that text. *)
Theorem structured_text_only_yields_the_text
        (w : World) (d : list (string * pyval)) (t : pyval) :
  PyDict.get d "text" = Some t ->
  PyDict.get d "images" = None ->
  PyDict.get d "videos" = None ->
  _process_multimodal_content w (PDict d) = Ok (PList [t]) /\
  as_parts (PList [t]) = [t].
Proof.
  intros Ht Hi Hv. unfold _process_multimodal_content.
  now rewrite Ht, Hi, Hv.
Qed.

Lemma structured_text_only_example :
  _process_multimodal_content
    Offline.world (PDict [("text", PStr "Build a todo app")])
  = Ok (PList [PStr "Build a todo app"]) /\
  as_parts (PList [PStr "Build a todo app"]) = [PStr "Build a todo app"].
Proof.
  exact (structured_text_only_yields_the_text
           Offline.world [("text", PStr "Build a todo app")]
           (PStr "Build a todo app") eq_refl eq_refl eq_refl).
Defined.



Lemma process_item_yield (w : World) (item : pyval) :
  match process_item w item with
  | Ok ps => List.length ps = parts_yielded item /\
             malformed_image_url item = false
  | Raise e => e = AttributeError_get /\ malformed_image_url item = true
  end.
Proof.
  unfold process_item, parts_yielded, yields_one_part, malformed_image_url.
  destruct item as [| | | | | |d]; try (split; reflexivity).
  destruct (PyDict.get d "type") as [ty|]; [|split; reflexivity].
  destruct (py_eq_str ty "text"); [split; reflexivity|].
  destruct (py_eq_str ty "image_url"); [|split; reflexivity].
  destruct (PyDict.get_default d "image_url" (PDict [])); split; reflexivity.
Qed.

(** X3.  When the normaliser returns for a list content, the number of
    parts is the number of items that are untyped, text items or image_url
    items: never more than the number of items, and equal to it exactly when
    no item carries another discriminator. *)
Theorem list_content_part_count
        (w : World) (items ps : list pyval) :
  _process_multimodal_content w (PList items) = Ok (PList ps) ->
  List.length ps = List.length (filter yields_one_part items) /\
  List.length ps <= List.length items /\
  (List.length ps = List.length items <->
   forallb yields_one_part items = true).
Proof.
  unfold _process_multimodal_content. intros H.
  apply bind_Ok in H. destruct H as (qs & Hq & H). injection H as <-.
  assert (Hcount : List.length qs
                   = List.length (filter yields_one_part items)).
  { revert qs Hq. induction items as [|item rest IH]; simpl; intros qs Hq.
    - now injection Hq as <-.
    - apply bind_Ok in Hq. destruct Hq as (p & Hp & Hq).
      apply bind_Ok in Hq. destruct Hq as (r & Hr & Hq). injection Hq as <-.
      pose proof (process_item_yield w item) as Hy. rewrite Hp in Hy.
      destruct Hy as [Hlen _]. rewrite length_app, Hlen, (IH r Hr).
      unfold parts_yielded. now destruct (yields_one_part item). }
  split; [exact Hcount|]. rewrite Hcount. clear.
  induction items as [|item rest [IH1 IH2]]; simpl.
  - split; [lia|]. split; reflexivity.
  - destruct (yields_one_part item); simpl.
    + split; [lia|]. rewrite <- IH2. lia.
    + split; [lia|]. split; [lia | discriminate].
Qed.

Lemma list_content_part_count_example :
  List.length [PStr "before"; PStr "after"]
    = List.length
        (filter yields_one_part
                [PDict [("type", PStr "text"); ("text", PStr "before")];
                 PDict [("type", PStr "video"); ("video", PStr "demo.mp4")];
                 PDict [("type", PStr "text"); ("text", PStr "after")]]) /\
  List.length [PStr "before"; PStr "after"] <= 3 /\
  (List.length [PStr "before"; PStr "after"] = 3 <->
   forallb yields_one_part
           [PDict [("type", PStr "text"); ("text", PStr "before")];
            PDict [("type", PStr "video"); ("video", PStr "demo.mp4")];
            PDict [("type", PStr "text"); ("text", PStr "after")]] = true).
Proof.
  exact (list_content_part_count
           Offline.world
           [PDict [("type", PStr "text"); ("text", PStr "before")];
            PDict [("type", PStr "video"); ("video", PStr "demo.mp4")];
            PDict [("type", PStr "text"); ("text", PStr "after")]]
           [PStr "before"; PStr "after"] eq_refl).
Defined.

(** X4.  Normalising a list content raises exactly when some item has the
    discriminator "image_url" and an "image_url" value that is not a dict;
    the exception is the AttributeError of the missing [get], and nothing
    catches it.  Every other list normalises. *)
Theorem list_content_raises_on_malformed_image_url
        (w : World) (items : list pyval) :
  (existsb malformed_image_url items = true ->
   _process_multimodal_content w (PList items) = Raise AttributeError_get) /\
  (existsb malformed_image_url items = false ->
   exists ps, _process_multimodal_content w (PList items) = Ok (PList ps)).
Proof.
  unfold _process_multimodal_content.
  induction items as [|item rest [IHt IHf]]; simpl.
  - split; [discriminate|]. intros _. now exists [].
  - pose proof (process_item_yield w item) as Hy.
    destruct (process_item w item) as [p|e]; simpl.
    + destruct Hy as [_ ->]. simpl. split.
      * intros H. specialize (IHt H).
        destruct (process_items w rest); [discriminate | exact IHt].
      * intros H. destruct (IHf H) as [ps Hps].
        destruct (process_items w rest) as [qs|]; [|discriminate].
        now exists (p ++ qs)%list.
    + destruct Hy as [-> ->]. simpl. split; [reflexivity | discriminate].
Qed.

Lemma list_content_raises_example :
  _process_multimodal_content
    Offline.world
    (PList [PStr "look";
            PDict [("type", PStr "image_url");
                   ("image_url", PStr "http://example.invalid/a.png")]])
  = Raise AttributeError_get.
Proof.
  apply (list_content_raises_on_malformed_image_url
           Offline.world
           [PStr "look";
            PDict [("type", PStr "image_url");
                   ("image_url", PStr "http://example.invalid/a.png")]]).
  reflexivity.
Defined.

(** X5.  Normalisation of list contents respects concatenation: the parts
    of two lists put end to end are the parts of the first followed by the
    parts of the second, so the order of the items is the order of their
    parts. *)
Theorem list_content_parts_concatenate
        (w : World) (xs ys ps qs : list pyval) :
  _process_multimodal_content w (PList xs) = Ok (PList ps) ->
  _process_multimodal_content w (PList ys) = Ok (PList qs) ->
  _process_multimodal_content w (PList (xs ++ ys)) = Ok (PList (ps ++ qs)).
Proof.
  unfold _process_multimodal_content. intros Hx Hy.
  apply bind_Ok in Hx. destruct Hx as (ps' & Hps & Hx). injection Hx as <-.
  apply bind_Ok in Hy. destruct Hy as (qs' & Hqs & Hy). injection Hy as <-.
  now rewrite process_items_app, Hps, Hqs.
Qed.

Lemma list_content_parts_concatenate_example :
  _process_multimodal_content
    Offline.world
    (PList ([PStr "first"; PDict [("type", PStr "text"); ("text", PStr "a")]]
              ++ [PInt 2%Z; PDict [("type", PStr "image")]]))
  = Ok (PList ([PStr "first"; PStr "a"] ++ [PStr "2"])).
Proof.
  exact (list_content_parts_concatenate
           Offline.world
           [PStr "first"; PDict [("type", PStr "text"); ("text", PStr "a")]]
           [PInt 2%Z; PDict [("type", PStr "image")]]
           [PStr "first"; PStr "a"] [PStr "2"] eq_refl eq_refl).
Defined.

Lemma load_all_iterable (load : pyval -> pyval) (field : option pyval) :
  match load_all load field with
  | Ok _ => iterable_field field = true
  | Raise e => e = TypeError_not_iterable /\ iterable_field field = false
  end.
Proof.
  unfold load_all, iterable_field.
  destruct field as [v|]; [|reflexivity].
  destruct v; simpl; try reflexivity; now split.
Qed.

(** X6.  Normalising a structured content returns exactly when its images
    and videos values, where present, can be iterated; a value that cannot
    (None, a bool, an int) makes it raise TypeError, which nothing catches. *)
Theorem structured_content_raises_on_non_iterable
        (w : World) (d : list (string * pyval)) :
  (iterable_field (PyDict.get d "images")
   && iterable_field (PyDict.get d "videos") = true ->
   exists c', _process_multimodal_content w (PDict d) = Ok c') /\
  (iterable_field (PyDict.get d "images")
   && iterable_field (PyDict.get d "videos") = false ->
   _process_multimodal_content w (PDict d) = Raise TypeError_not_iterable).
Proof.
  unfold _process_multimodal_content.
  pose proof (load_all_iterable (_load_image w) (PyDict.get d "images")) as Hi.
  pose proof (load_all_iterable (_load_video w) (PyDict.get d "videos")) as Hv.
  destruct (load_all (_load_image w) (PyDict.get d "images")) as [imgs|ei];
    simpl.
  - rewrite Hi. simpl.
    destruct (load_all (_load_video w) (PyDict.get d "videos")) as [vids|ev];
      simpl.
    + rewrite Hv. split; [|discriminate]. intros _.
      destruct (_ ++ imgs ++ vids)%list; eexists; reflexivity.
    + destruct Hv as [-> ->]. split; [discriminate | reflexivity].
  - destruct Hi as [-> ->]. simpl. split; [discriminate | reflexivity].
Qed.

Lemma structured_content_raises_example :
  _process_multimodal_content
    Offline.world (PDict [("text", PStr "see"); ("images", PNone)])
  = Raise TypeError_not_iterable.
Proof.
  apply (structured_content_raises_on_non_iterable
           Offline.world [("text", PStr "see"); ("images", PNone)]).
  reflexivity.
Defined.

(** ** Conversation translation *)

Lemma convert_pass_role_sequence (w : World) (messages : list Message) :
  forall gs, convert_pass w messages = Ok gs ->
             map role gs = flat_map provider_role_of messages.
Proof.
  induction messages as [|m rest IH]; simpl; intros gs H.
  - now injection H as <-.
  - destruct m as [c|c|c].
    + now apply IH.
    + bind_inv H. bind_inv H. injection H as <-. simpl. f_equal. now apply IH.
    + bind_inv H. injection H as <-. simpl. f_equal. now apply IH.
Qed.

Lemma convert_pass_skips_system (w : World) (pre post : list Message)
      (s : pyval) :
  convert_pass w (pre ++ SystemMessage s :: post) = convert_pass w (pre ++ post).
Proof.
  induction pre as [|m pre IH]; simpl; [reflexivity|].
  destruct m; now rewrite IH.
Qed.

Lemma first_system_app (pre rest : list Message) (s : pyval) :
  first_system pre = Some s -> first_system (pre ++ rest) = Some s.
Proof.
  induction pre as [|m pre IH]; simpl; [discriminate|].
  destruct m; auto.
Qed.

Lemma prepend_system_models (system_content : string)
      (gs : list GeminiMessage) :
  forall gs', prepend_system system_content gs = Ok gs' ->
              filter is_model gs' = filter is_model gs.
Proof.
  induction gs as [|g rest IH]; simpl; intros gs' H.
  - now injection H as <-.
  - destruct (String.eqb (role g) "user") eqn:Hrole.
    + apply String.eqb_eq in Hrole.
      destruct (parts g) as [|[| | |t| | |] ps]; try discriminate;
        injection H as <-; try reflexivity.
      simpl. unfold is_model. simpl. now rewrite Hrole.
    + bind_inv H. injection H as <-. simpl. now rewrite (IH a E).
Qed.

Lemma convert_pass_models (w : World) (messages : list Message) :
  forall gs, convert_pass w messages = Ok gs ->
             filter is_model gs
             = map (fun c => mkGeminiMessage "model" [c])
                   (assistant_contents messages).
Proof.
  induction messages as [|m rest IH]; simpl; intros gs H.
  - now injection H as <-.
  - destruct m as [c|c|c].
    + now apply IH.
    + bind_inv H. bind_inv H. injection H as <-. simpl. now apply IH.
    + bind_inv H. injection H as <-. simpl. f_equal. now apply IH.
Qed.

Lemma convert_pass_without_user (w : World) (messages : list Message) :
  first_human messages = None ->
  convert_pass w messages
  = Ok (map (fun c => mkGeminiMessage "model" [c])
            (assistant_contents messages)).
Proof.
  induction messages as [|m rest IH]; simpl; intros H; [reflexivity|].
  destruct m as [c|c|c]; [now apply IH | discriminate |].
  now rewrite (IH H).
Qed.

Lemma prepend_system_all_models (system_content : string)
      (cs : list pyval) :
  prepend_system system_content
                 (map (fun c => mkGeminiMessage "model" [c]) cs)
  = Ok (map (fun c => mkGeminiMessage "model" [c]) cs).
Proof.
  induction cs as [|c cs IH]; simpl; [reflexivity|]. now rewrite IH.
Qed.

(** X7.  A user turn that carries images and no text loses the system
    instruction: with a structured content that has no text and at least one
    image, the translation of [System, User] is the one user entry holding
    the resolved images, none of which is a text part, so the system text is
    sent nowhere. *)
Theorem system_text_is_dropped_for_image_first_content
        (w : World) (s : pyval) (d : list (string * pyval))
        (x : pyval) (xs : list pyval) :
  PyDict.get d "text" = None ->
  PyDict.get d "images" = Some (PList (x :: xs)) ->
  PyDict.get d "videos" = None ->
  _convert_messages_to_gemini w [SystemMessage s; HumanMessage (PDict d)]
  = Ok [mkGeminiMessage "user" (map (_load_image w) (x :: xs))] /\
  Forall (fun p => is_str p = false) (map (_load_image w) (x :: xs)).
Proof.
  intros Ht Hi Hv. split.
  - assert (Hpass : convert_pass w [SystemMessage s; HumanMessage (PDict d)]
                    = Ok [mkGeminiMessage "user"
                            (map (_load_image w) (x :: xs))]).
    { cbn [convert_pass]. unfold _process_multimodal_content.
      rewrite Ht, Hi, Hv.
      cbn [load_all py_iter bind app map as_parts].
      now rewrite app_nil_r. }
    unfold _convert_messages_to_gemini. rewrite Hpass.
    cbn [bind first_system].
    pose proof (prepend_system_first_user
                  (system_prefix w s) [] [] (map (_load_image w) (x :: xs))
                  (Forall_nil _)) as Hfold.
    cbn [app] in Hfold. rewrite Hfold. cbn [map].
    destruct (loaders_return_no_str w x) as (_ & Hx & _).
    destruct (_load_image w x); try reflexivity. discriminate.
  - apply Forall_forall. intros p Hp. apply in_map_iff in Hp.
    destruct Hp as (v & <- & _). apply loaders_return_no_str.
Qed.

Lemma system_text_is_dropped_example :
  _convert_messages_to_gemini
    Offline.world
    [SystemMessage (PStr "Be brief");
     HumanMessage (PDict [("images", PList [PStr "a.png"])])]
  = Ok [mkGeminiMessage "user" [text_part "[Image: a.png]"]] /\
  Forall (fun p => is_str p = false)
         (map (_load_image Offline.world) [PStr "a.png"]).
Proof.
  exact (system_text_is_dropped_for_image_first_content
           Offline.world (PStr "Be brief")
           [("images", PList [PStr "a.png"])] (PStr "a.png") []
           eq_refl eq_refl eq_refl).
Defined.

(** X8.  Whatever the translation returns has one entry per user and
    assistant turn of the conversation, in the order of the turns, with role
    "user" for a user turn and "model" for an assistant turn; system turns
    leave no entry. *)
Theorem convert_keeps_one_entry_per_turn
        (w : World) (messages : list Message) (out : list GeminiMessage) :
  _convert_messages_to_gemini w messages = Ok out ->
  map role out = flat_map provider_role_of messages /\
  List.length out
  = List.length (filter (fun m => match m with
                                  | SystemMessage _ => false
                                  | _ => true
                                  end) messages).
Proof.
  unfold _convert_messages_to_gemini. intros H. bind_inv H.
  assert (Hroles : map role out = flat_map provider_role_of messages).
  { rewrite <- (convert_pass_role_sequence w messages a E).
    destruct (first_system messages).
    - now apply prepend_system_roles in H.
    - now injection H as <-. }
  split; [exact Hroles|].
  rewrite <- (length_map role), Hroles. clear.
  induction messages as [|m rest IH]; simpl; [reflexivity|].
  destruct m; simpl; now rewrite ?IH.
Qed.

Lemma convert_keeps_one_entry_per_turn_example :
  map role
      [mkGeminiMessage "user" [PStr (system_prefix Offline.world (PStr "s")
                                       ++ "q1")];
       mkGeminiMessage "model" [PStr "a1"];
       mkGeminiMessage "user" [PStr "q2"]]
  = flat_map provider_role_of
             [SystemMessage (PStr "s"); HumanMessage (PStr "q1");
              AIMessage (PStr "a1"); HumanMessage (PStr "q2")] /\
  3 = List.length
        (filter (fun m => match m with
                          | SystemMessage _ => false
                          | _ => true
                          end)
                [SystemMessage (PStr "s"); HumanMessage (PStr "q1");
                 AIMessage (PStr "a1"); HumanMessage (PStr "q2")]).
Proof.
  exact (convert_keeps_one_entry_per_turn
           Offline.world
           [SystemMessage (PStr "s"); HumanMessage (PStr "q1");
            AIMessage (PStr "a1"); HumanMessage (PStr "q2")]
           _ eq_refl).
Defined.

(** X9.  Only the first system turn counts: a system turn that comes after
    another one can be removed from the conversation without changing what
    the translation returns or raises. *)
Theorem convert_ignores_later_system_turns
        (w : World) (pre post : list Message) (s s2 : pyval) :
  first_system pre = Some s ->
  _convert_messages_to_gemini w (pre ++ SystemMessage s2 :: post)
  = _convert_messages_to_gemini w (pre ++ post).
Proof.
  intros Hs. unfold _convert_messages_to_gemini.
  rewrite convert_pass_skips_system.
  now rewrite !(first_system_app pre _ s Hs).
Qed.

Lemma convert_ignores_later_system_turns_example :
  _convert_messages_to_gemini
    Offline.world
    ([SystemMessage (PStr "Be brief"); HumanMessage (PStr "hi")]
       ++ SystemMessage (PStr "Be verbose") :: [HumanMessage (PStr "more")])
  = _convert_messages_to_gemini
      Offline.world
      ([SystemMessage (PStr "Be brief"); HumanMessage (PStr "hi")]
         ++ [HumanMessage (PStr "more")]).
Proof.
  exact (convert_ignores_later_system_turns
           Offline.world
           [SystemMessage (PStr "Be brief"); HumanMessage (PStr "hi")]
           [HumanMessage (PStr "more")]
           (PStr "Be brief") (PStr "Be verbose") eq_refl).
Defined.

(** X10.  Once every user turn has normalised, the translation raises in
    one case only: the conversation has a system turn and its first user
    turn normalised to no part, and then it raises IndexError.  Without a
    system turn, or with a first user turn of at least one part, it
    returns. *)
Theorem convert_raises_only_on_empty_first_user_turn
        (w : World) (messages : list Message) (plain : list GeminiMessage)
        (c c' : pyval) :
  convert_pass w messages = Ok plain ->
  first_human messages = Some c ->
  _process_multimodal_content w c = Ok c' ->
  (first_system messages <> None /\ as_parts c' = [] ->
   _convert_messages_to_gemini w messages = Raise IndexError_list) /\
  (first_system messages = None \/ as_parts c' <> [] ->
   exists out, _convert_messages_to_gemini w messages = Ok out).
Proof.
  intros Hplain Hc Hc'.
  destruct (convert_pass_first_human w messages c plain Hc Hplain)
    as (c'' & before & after & Hp & Hsplit & Hb).
  rewrite Hc' in Hp. injection Hp as <-.
  unfold _convert_messages_to_gemini. rewrite Hplain. simpl.
  split.
  - intros [Hsys Hempty].
    destruct (first_system messages) as [s|]; [|now elim Hsys].
    now rewrite Hsplit, prepend_system_first_user, Hempty.
  - intros H.
    destruct (first_system messages) as [s|]; [|now exists plain].
    destruct H as [H | H]; [discriminate|].
    rewrite Hsplit, prepend_system_first_user by assumption.
    destruct (as_parts c') as [|[| | |t| | |] ps];
      try (eexists; reflexivity).
    now elim H.
Qed.

Lemma convert_raises_on_dropped_item_example :
  _convert_messages_to_gemini
    Offline.world
    [SystemMessage (PStr "Be brief");
     HumanMessage (PList [PDict [("type", PStr "image")]])]
  = Raise IndexError_list.
Proof.
  apply (convert_raises_only_on_empty_first_user_turn
           Offline.world
           [SystemMessage (PStr "Be brief");
            HumanMessage (PList [PDict [("type", PStr "image")]])]
           [mkGeminiMessage "user" []]
           (PList [PDict [("type", PStr "image")]]) (PList [])
           eq_refl eq_refl eq_refl).
  split; [discriminate | reflexivity].
Defined.

(** X11.  A conversation without a user turn translates to its assistant
    turns alone, each as one "model" entry with its content as the only
    part: the system text has no turn to be folded into and is not sent. *)
Theorem convert_without_user_turn_drops_system
        (w : World) (messages : list Message) :
  first_human messages = None ->
  _convert_messages_to_gemini w messages
  = Ok (map (fun c => mkGeminiMessage "model" [c])
            (assistant_contents messages)).
Proof.
  intros H. unfold _convert_messages_to_gemini.
  rewrite (convert_pass_without_user w messages H). simpl.
  destruct (first_system messages); [|reflexivity].
  apply prepend_system_all_models.
Qed.

Lemma convert_without_user_turn_example :
  _convert_messages_to_gemini
    Offline.world [SystemMessage (PStr "Be brief"); AIMessage (PStr "Hello")]
  = Ok [mkGeminiMessage "model" [PStr "Hello"]].
Proof.
  exact (convert_without_user_turn_drops_system
           Offline.world
           [SystemMessage (PStr "Be brief"); AIMessage (PStr "Hello")]
           eq_refl).
Defined.

(** X12.  Assistant turns pass through the translation untouched: the
    "model" entries of the result are the contents of the assistant turns,
    in order, each as a single part, never normalised and never given the
    system prefix. *)
Theorem convert_passes_assistant_turns_through
        (w : World) (messages : list Message) (out : list GeminiMessage) :
  _convert_messages_to_gemini w messages = Ok out ->
  filter is_model out
  = map (fun c => mkGeminiMessage "model" [c]) (assistant_contents messages).
Proof.
  unfold _convert_messages_to_gemini. intros H. bind_inv H.
  rewrite <- (convert_pass_models w messages a E).
  destruct (first_system messages).
  - now apply prepend_system_models in H.
  - now injection H as <-.
Qed.

Lemma convert_passes_assistant_turns_example :
  filter is_model
         [mkGeminiMessage "model" [PList [PStr "kept as a list"]];
          mkGeminiMessage "user"
            [PStr (system_prefix Offline.world (PStr "s") ++ "q")]]
  = map (fun c => mkGeminiMessage "model" [c])
        (assistant_contents
           [AIMessage (PList [PStr "kept as a list"]);
            SystemMessage (PStr "s"); HumanMessage (PStr "q")]).
Proof.
  exact (convert_passes_assistant_turns_through
           Offline.world
           [AIMessage (PList [PStr "kept as a list"]);
            SystemMessage (PStr "s"); HumanMessage (PStr "q")]
           _ eq_refl).
Defined.

(** ** Model selection *)

(** X13.  With the multimodal flag on, which is the constructor's default,
    the text model is never selected and the conversation plays no part in
    the choice: any two conversations get the same model. *)
Theorem select_model_ignores_turns_when_multimodal_enabled
        (self : GeminiAI) (messages messages' : list Message) :
  enable_multimodal self = true ->
  _select_model self messages <> text_model /\
  _select_model self messages = _select_model self messages'.
Proof.
  intros Hflag. unfold _select_model. rewrite Hflag, !orb_true_r.
  split; [|reflexivity].
  destruct (PyStr.contains "1.5" (model_name self)); discriminate.
Qed.

Lemma select_model_default_adapter_example :
  _select_model Offline.adapter text_only_turns <> text_model /\
  _select_model Offline.adapter text_only_turns
  = _select_model Offline.adapter images_turn.
Proof.
  exact (select_model_ignores_turns_when_multimodal_enabled
           Offline.adapter text_only_turns images_turn eq_refl).
Defined.

(** X14.  A choice other than the text model is stable: adding turns before
    or after a conversation that selected the vision or the multimodal model
    selects the same model. *)
Theorem select_model_stable_under_more_turns
        (self : GeminiAI) (messages more : list Message) :
  _select_model self messages <> text_model ->
  _select_model self (messages ++ more) = _select_model self messages /\
  _select_model self (more ++ messages) = _select_model self messages.
Proof.
  unfold _select_model. rewrite !existsb_app. intros H.
  destruct (existsb _ messages); simpl.
  - rewrite orb_true_r. simpl. split; reflexivity.
  - simpl in H. destruct (enable_multimodal self); [|now elim H].
    rewrite !orb_true_r. split; reflexivity.
Qed.

Lemma select_model_stable_example :
  _select_model (GeminiAI_init "gemini-pro" true true false)
                (images_turn ++ text_only_turns)
  = _select_model (GeminiAI_init "gemini-pro" true true false) images_turn /\
  _select_model (GeminiAI_init "gemini-pro" true true false)
                (text_only_turns ++ images_turn)
  = _select_model (GeminiAI_init "gemini-pro" true true false) images_turn.
Proof.
  apply (select_model_stable_under_more_turns
           (GeminiAI_init "gemini-pro" true true false)
           images_turn text_only_turns).
  discriminate.
Defined.

(** X15.  The multimodal model is selected only for an adapter whose vision
    attribute is set: both need "1.5" in the model name. *)
Theorem select_model_multimodal_implies_vision
        (self : GeminiAI) (messages : list Message) :
  _select_model self messages = multimodal_model ->
  vision self = true.
Proof.
  unfold _select_model, vision. intros H.
  destruct (PyStr.contains "1.5" (model_name self)).
  - apply orb_true_r.
  - destruct (_ || enable_multimodal self); discriminate.
Qed.

Lemma select_model_multimodal_implies_vision_example :
  vision Offline.adapter = true.
Proof.
  exact (select_model_multimodal_implies_vision
           Offline.adapter text_only_turns eq_refl).
Defined.

(** ** The secondary-asset trigger *)

(** X16.  An adapter whose generators return no path, as the two generators
    of the class do, returns every response unchanged, whatever phrases it
    contains and whatever the flags. *)
Theorem handle_generation_requests_identity_for_silent_generators
        (w : World) (self : GeminiAI) (response step_name : string) :
  (forall r s, generate_images_from_response self r s = []) ->
  (forall r s, generate_videos_from_response self r s = []) ->
  _handle_generation_requests w self response step_name = response.
Proof.
  intros Hi Hv. unfold _handle_generation_requests. rewrite Hi, Hv.
  destruct (_ && _); now destruct (_ && _).
Qed.

Lemma handle_generation_requests_identity_example :
  _handle_generation_requests
    Offline.world Offline.adapter
    "Draw a diagram and record a demo video" "codegen"
  = "Draw a diagram and record a demo video".
Proof.
  apply (handle_generation_requests_identity_for_silent_generators
           Offline.world Offline.adapter
           "Draw a diagram and record a demo video" "codegen");
    reflexivity.
Defined.

(** X17.  When video generation is enabled and the lower-cased response
    contains one of the video phrases, the video generator is consulted: for
    at least one returned path the header "## Generated Videos" and one
    markdown link line per path follow what the image check added; for no
    path nothing is added for videos. *)
Theorem handle_generation_requests_video_section
        (w : World) (self : GeminiAI) (response step_name : string) :
  enable_video_generation self = true ->
  (exists keyword, In keyword video_keywords /\
                   PyStr.Substring keyword (str_lower w response)) ->
  (forall video_path rest,
      generate_videos_from_response self response step_name
        = video_path :: rest ->
      _handle_generation_requests w self response step_name
      = response ++ images_added w self response step_name
                 ++ videos_header
                 ++ lines_of video_line (video_path :: rest)) /\
  (generate_videos_from_response self response step_name = [] ->
   _handle_generation_requests w self response step_name
   = response ++ images_added w self response step_name).
Proof.
  intros Hflag Hkw.
  assert (Hvid : videos_added w self response step_name
                 = generated_section
                     videos_header video_line
                     (generate_videos_from_response self response step_name)).
  { unfold videos_added, _should_generate_videos.
    now rewrite Hflag, (PyStrFacts.existsb_contains_true _ _ Hkw). }
  rewrite handle_generation_requests_appends, Hvid.
  split.
  - now intros video_path rest ->.
  - intros ->. simpl. now rewrite PyStrFacts.append_nil_r.
Qed.

Lemma handle_generation_requests_video_section_example :
  _handle_generation_requests
    Offline.world Offline.illustrating "See the walkthrough" "codegen"
  = "See the walkthrough"
      ++ ""
      ++ videos_header
      ++ lines_of video_line ["generated_assets/codegen/demo.mp4"].
Proof.
  exact (proj1 (handle_generation_requests_video_section
                  Offline.world Offline.illustrating
                  "See the walkthrough" "codegen" eq_refl
                  (ex_intro _ "walkthrough"
                     (conj (or_intror (or_intror (or_intror (or_intror
                              (or_intror (or_intror (or_introl eq_refl)))))))
                           (ex_intro _ "see the "
                              (ex_intro _ "" eq_refl)))))
               "generated_assets/codegen/demo.mp4" [] eq_refl).
Defined.

(** X18.  With both generation flags off the response is returned
    unchanged, even when it contains trigger phrases and the generators
    would return paths. *)
Theorem handle_generation_requests_identity_when_disabled
        (w : World) (self : GeminiAI) (response step_name : string) :
  enable_image_generation self = false ->
  enable_video_generation self = false ->
  _handle_generation_requests w self response step_name = response.
Proof.
  intros Hi Hv. unfold _handle_generation_requests. now rewrite Hi, Hv.
Qed.

Lemma handle_generation_requests_disabled_example :
  _handle_generation_requests
    Offline.world
    (mkGeminiAI "gemini-1.5-pro" false false true
                (generate_images_from_response Offline.illustrating)
                (generate_videos_from_response Offline.illustrating))
    "Draw a diagram and an animation" "codegen"
  = "Draw a diagram and an animation".
Proof.
  exact (handle_generation_requests_identity_when_disabled
           Offline.world
           (mkGeminiAI "gemini-1.5-pro" false false true
                       (generate_images_from_response Offline.illustrating)
                       (generate_videos_from_response Offline.illustrating))
           "Draw a diagram and an animation" "codegen" eq_refl eq_refl).
Defined.

(** X19.  When both checks fire and both generators return paths, the
    response is followed by the images section and then by the videos
    section, each with its header and one line per path in order; the video
    check looks at the response, not at the text with the images section. *)
Theorem handle_generation_requests_images_before_videos
        (w : World) (self : GeminiAI) (response step_name : string)
        (img : string) (imgs : list string)
        (vid : string) (vids : list string) :
  enable_image_generation self = true ->
  enable_video_generation self = true ->
  _should_generate_images w response = true ->
  _should_generate_videos w response = true ->
  generate_images_from_response self response step_name = img :: imgs ->
  generate_videos_from_response self response step_name = vid :: vids ->
  _handle_generation_requests w self response step_name
  = response
      ++ images_header ++ lines_of image_line (img :: imgs)
      ++ videos_header ++ lines_of video_line (vid :: vids).
Proof.
  intros Hi Hv Hsi Hsv Hgi Hgv.
  rewrite handle_generation_requests_appends.
  unfold images_added, videos_added.
  rewrite Hi, Hv, Hsi, Hsv, Hgi, Hgv. simpl andb. cbv iota.
  unfold generated_section. now rewrite PyStrFacts.append_assoc.
Qed.

Lemma handle_generation_requests_both_sections_example :
  _handle_generation_requests
    Offline.world Offline.illustrating
    "Draw a diagram and an animation" "codegen"
  = "Draw a diagram and an animation"
      ++ images_header
      ++ lines_of image_line ["generated_assets/codegen/diagram.png"]
      ++ videos_header
      ++ lines_of video_line ["generated_assets/codegen/demo.mp4"].
Proof.
  exact (handle_generation_requests_images_before_videos
           Offline.world Offline.illustrating
           "Draw a diagram and an animation" "codegen"
           "generated_assets/codegen/diagram.png" []
           "generated_assets/codegen/demo.mp4" []
           eq_refl eq_refl eq_refl eq_refl eq_refl eq_refl).
Defined.

(** ** The generation invoker *)

Lemma convert_system_and_text (w : World) (system u : string) :
  _convert_messages_to_gemini
    w [SystemMessage (PStr system); HumanMessage (PStr u)]
  = Ok [mkGeminiMessage "user"
          [PStr (system_prefix w (PStr system) ++ u)]].
Proof. reflexivity. Qed.

(** [start] on a plain text: the three turns, with the text of the third
    decided by the provider's outcome on the one request. *)
Lemma start_with_text (w : World) (self : GeminiAI) (log : TokenUsageLog)
      (system u step_name : string) :
  exists text log',
    start w self log system (PStr u) step_name
    = (Ok [SystemMessage (PStr system); HumanMessage (PStr u);
           AIMessage (PStr text)], log') /\
    (forall e, (forall m g, generate_content w m g = Raise e) ->
               text = fallback_response e /\ log' = log).
Proof.
  unfold start, next. cbn [append_prompt].
  rewrite convert_system_and_text.
  destruct (generate_content w _ _) as [response|e0] eqn:Hgen.
  - eexists _, _. split; [reflexivity|].
    intros e He. now rewrite He in Hgen.
  - exists (fallback_response e0), log. split; [reflexivity|].
    intros e He. rewrite He in Hgen. now injection Hgen as <-.
Qed.

(** X20.  What the translation raises escapes [next]: it is raised to the
    caller, no assistant turn is produced and the usage log is untouched. *)
Theorem next_lets_translation_errors_escape
        (w : World) (self : GeminiAI) (log : TokenUsageLog)
        (messages : list Message) (prompt : option string)
        (step_name : string) (e : exn) :
  _convert_messages_to_gemini w (append_prompt messages prompt) = Raise e ->
  next w self log messages prompt step_name = (Raise e, log).
Proof.
  intros H. unfold next. now rewrite H.
Qed.

Lemma next_raises_index_error_example :
  next Offline.world Offline.adapter Offline.used_log
       [SystemMessage (PStr "Be brief"); HumanMessage (PList [])]
       None "codegen"
  = (Raise IndexError_list, Offline.used_log).
Proof.
  exact (next_lets_translation_errors_escape
           Offline.world Offline.adapter Offline.used_log
           [SystemMessage (PStr "Be brief"); HumanMessage (PList [])]
           None "codegen" IndexError_list eq_refl).
Defined.

(** X21.  Whenever [next] returns, on the success path and on the fallback
    path alike, the result is the conversation it sent followed by exactly
    one assistant turn holding a text, and it begins with the history it was
    given. *)
Theorem next_result_ends_with_one_assistant_turn
        (w : World) (self : GeminiAI) (log : TokenUsageLog)
        (messages : list Message) (prompt : option string)
        (step_name : string) (out : list Message) :
  fst (next w self log messages prompt step_name) = Ok out ->
  exists text,
    out = (append_prompt messages prompt ++ [AIMessage (PStr text)])%list /\
    List.length out = S (List.length (append_prompt messages prompt)) /\
    firstn (List.length messages) out = messages.
Proof.
  unfold next. intros H.
  destruct (_convert_messages_to_gemini w (append_prompt messages prompt));
    [|discriminate].
  assert (Hshape : exists text,
             out = (append_prompt messages prompt
                      ++ [AIMessage (PStr text)])%list).
  { destruct (generate_content w _ _); simpl in H; injection H as <-;
      eexists; reflexivity. }
  destruct Hshape as [text ->]. exists text.
  split; [reflexivity|]. split.
  - rewrite length_app. simpl. lia.
  - destruct (append_prompt_extends messages prompt) as [asked ->].
    rewrite <- app_assoc. apply firstn_history.
Qed.

Lemma next_result_shape_example :
  exists text,
    [SystemMessage (PStr "You write code");
     HumanMessage (PStr "Create a calculator");
     HumanMessage (PStr "Add tests");
     AIMessage (PStr "Done.")]
    = (append_prompt Offline.scenario (Some "Add tests")
         ++ [AIMessage (PStr text)])%list /\
    4 = S (List.length (append_prompt Offline.scenario (Some "Add tests"))) /\
    firstn 2 [SystemMessage (PStr "You write code");
              HumanMessage (PStr "Create a calculator");
              HumanMessage (PStr "Add tests");
              AIMessage (PStr "Done.")]
    = Offline.scenario.
Proof.
  exact (next_result_ends_with_one_assistant_turn
           (Offline.answering "Done.") Offline.adapter Offline.empty_log
           Offline.scenario (Some "Add tests") "codegen" _ eq_refl).
Defined.

(** X22.  [start] on a system text and a plain user text never raises: it
    returns exactly three turns, the system turn, the user turn and one
    assistant turn, and the request behind it is a single user entry whose
    only part is "System: <system>\n\nUser: <user>". *)
Theorem start_with_text_returns_three_turns
        (w : World) (self : GeminiAI) (log : TokenUsageLog)
        (system u step_name : string) :
  (exists text,
      fst (start w self log system (PStr u) step_name)
      = Ok [SystemMessage (PStr system); HumanMessage (PStr u);
            AIMessage (PStr text)]) /\
  _convert_messages_to_gemini
    w [SystemMessage (PStr system); HumanMessage (PStr u)]
  = Ok [mkGeminiMessage "user"
          [PStr ("System: " ++ system ++ PyStr.nl ++ PyStr.nl
                            ++ "User: " ++ u)]].
Proof.
  split.
  - destruct (start_with_text w self log system u step_name)
      as (text & log' & H & _).
    exists text. now rewrite H.
  - rewrite convert_system_and_text. unfold system_prefix. simpl py_str.
    now rewrite !PyStrFacts.append_assoc.
Qed.



(** ** Construction of the adapter *)

Lemma call_Ok (outcome : option exn) (u : unit) :
  call outcome = Ok u -> outcome = None.
Proof. destruct outcome; [discriminate | reflexivity]. Qed.

(** What a constructor call that returned has built. *)
Lemma init_returns (sdk : GenAI) (getenv_key name google_api_key : option string)
      (images videos multimodal : bool) (self : GeminiAI) :
  GeminiAI__init__ sdk getenv_key name google_api_key images videos multimodal
    = Ok self ->
  exists model,
    name = Some model /\
    self = mkGeminiAI model images videos multimodal
                      base_generate_images_from_response
                      base_generate_videos_from_response.
Proof.
  unfold GeminiAI__init__. intros H.
  destruct (or_else google_api_key getenv_key) as [k|]; [|discriminate].
  destruct (PyStr.truthy k); [|discriminate].
  bind_inv H. bind_inv H. bind_inv H. bind_inv H.
  destruct name as [model|]; [|discriminate].
  bind_inv H. injection H as <-. now exists model.
Qed.

(** X24.  Without a key, none passed or an empty one and none or an empty
    one in the environment, the constructor raises ValueError before any
    call to the SDK: whatever the SDK would do, and whatever the model
    name. *)
Theorem init_requires_api_key
        (sdk : GenAI) (getenv_key name google_api_key : option string)
        (images videos multimodal : bool) :
  google_api_key = None \/ google_api_key = Some "" ->
  getenv_key = None \/ getenv_key = Some "" ->
  GeminiAI__init__ sdk getenv_key name google_api_key images videos multimodal
  = Raise ValueError_api_key.
Proof.
  intros [-> | ->] [-> | ->]; reflexivity.
Qed.

Lemma init_requires_api_key_example :
  GeminiAI__init__ working_sdk None (Some "gemini-1.5-pro") (Some "")
                   true true true
  = Raise ValueError_api_key.
Proof.
  exact (init_requires_api_key
           working_sdk None (Some "gemini-1.5-pro") (Some "")
           true true true (or_intror eq_refl) (or_introl eq_refl)).
Defined.

(** X25.  The factory called with model type "multimodal" and no model name
    never returns an adapter: the name None it passes on is kept by
    [setdefault], and the constructor raises, with or without a key and
    whatever the SDK does. *)
Theorem create_multimodal_without_name_raises
        (sdk : GenAI) (getenv_key : option string) (kwargs : Kwargs) :
  exists e, create_gemini_ai sdk getenv_key "multimodal" None kwargs = Raise e.
Proof.
  unfold create_gemini_ai. simpl String.eqb. cbv iota.
  unfold GeminiMultimodalAI__init__, GeminiAI__init__.
  destruct (or_else _ _) as [k|]; [|eexists; reflexivity].
  destruct (PyStr.truthy k); [|eexists; reflexivity].
  destruct (call (configure sdk k)); simpl; [|eexists; reflexivity].
  destruct (call (GenerativeModel sdk None)); simpl; [|eexists; reflexivity].
  destruct (call (GenerativeModel sdk (Some "gemini-1.5-pro"))); simpl;
    eexists; reflexivity.
Qed.

(** X26.  With a key and an SDK whose calls return, the factory called with
    any other model type and no model name, or an empty one, builds an
    adapter for "gemini-1.5-pro": its vision attribute is set and, unless
    the multimodal flag was passed as off, it selects the multimodal model
    for every conversation. *)
Theorem create_standard_defaults_to_gemini_1_5_pro
        (sdk : GenAI) (getenv_key : option string) (model_type : string)
        (name : option string) (kwargs : Kwargs) (api_key : string) :
  String.eqb model_type "multimodal" = false ->
  name = None \/ name = Some "" ->
  or_else (kw_google_api_key kwargs) getenv_key = Some api_key ->
  PyStr.truthy api_key = true ->
  configure sdk api_key = None ->
  GenerativeModel sdk (Some "gemini-1.5-pro") = None ->
  TokenUsageLog_new sdk "gemini-1.5-pro" = None ->
  exists self,
    create_gemini_ai sdk getenv_key model_type name kwargs = Ok self /\
    model_name self = "gemini-1.5-pro" /\
    vision self = true /\
    (kw_enable_multimodal kwargs <> Some false ->
     forall messages, _select_model self messages = multimodal_model).
Proof.
  intros Hty Hname Hkey Htruthy Hconf Hmodel Hlog.
  unfold create_gemini_ai. rewrite Hty.
  assert (Hn : or_else name (Some "gemini-1.5-pro") = Some "gemini-1.5-pro").
  { now destruct Hname as [-> | ->]. }
  rewrite Hn. unfold GeminiAI__init__.
  rewrite Hkey, Htruthy, Hconf, Hmodel, Hlog. simpl.
  eexists. split; [reflexivity|]. simpl.
  split; [reflexivity|]. split; [reflexivity|].
  intros Hmm messages. unfold _select_model. simpl.
  destruct (kw_enable_multimodal kwargs) as [[|]|]; simpl;
    try (now rewrite orb_true_r).
  now elim Hmm.
Qed.

Lemma create_standard_default_example :
  exists self,
    create_gemini_ai working_sdk (Some "key-from-env") "standard" None
                     no_kwargs = Ok self /\
    model_name self = "gemini-1.5-pro" /\
    vision self = true /\
    (kw_enable_multimodal no_kwargs <> Some false ->
     forall messages, _select_model self messages = multimodal_model).
Proof.
  exact (create_standard_defaults_to_gemini_1_5_pro
           working_sdk (Some "key-from-env") "standard" None no_kwargs
           "key-from-env" eq_refl (or_introl eq_refl) eq_refl eq_refl
           eq_refl eq_refl eq_refl).
Defined.

(** X27.  No adapter the factory builds ever changes a response: both
    constructors install the generators of the class, which return no path,
    so the trigger is the identity on every text. *)
Theorem created_adapter_never_augments_a_response
        (sdk : GenAI) (getenv_key : option string) (model_type : string)
        (name : option string) (kwargs : Kwargs) (self : GeminiAI)
        (w : World) (response step_name : string) :
  create_gemini_ai sdk getenv_key model_type name kwargs = Ok self ->
  _handle_generation_requests w self response step_name = response.
Proof.
  unfold create_gemini_ai, GeminiMultimodalAI__init__. intros H.
  assert (Hgen : generate_images_from_response self
                 = base_generate_images_from_response /\
                 generate_videos_from_response self
                 = base_generate_videos_from_response).
  { destruct (String.eqb model_type "multimodal");
      apply init_returns in H; destruct H as (model & _ & ->); now split. }
  destruct Hgen as [Hi Hv].
  unfold _handle_generation_requests. rewrite Hi, Hv.
  unfold base_generate_images_from_response,
    base_generate_videos_from_response.
  destruct (_ && _); now destruct (_ && _).
Qed.

Lemma created_adapter_never_augments_example :
  _handle_generation_requests
    Offline.world
    (mkGeminiAI "gemini-pro-vision" true true true
                base_generate_images_from_response
                base_generate_videos_from_response)
    "Draw a diagram and an animation" "codegen"
  = "Draw a diagram and an animation".
Proof.
  exact (created_adapter_never_augments_a_response
           working_sdk None "multimodal" (Some "gemini-pro-vision")
           (mkKwargs (Some "key") None None None) _
           Offline.world "Draw a diagram and an animation" "codegen" eq_refl).
Defined.

(** ** The steps *)

Lemma rstrip_keeps_last (s : string) (c : ascii) :
  Steps.is_space c = false ->
  Steps.rstrip (s ++ String c EmptyString) = s ++ String c EmptyString.
Proof.
  intros Hc. induction s as [|a s IH]; simpl.
  - now rewrite Hc.
  - rewrite IH. now destruct s.
Qed.

Lemma strip_fallback (e : exn) :
  Steps.strip (fallback_response e) = fallback_response e.
Proof.
  unfold Steps.strip, fallback_response.
  change (Steps.lstrip ("Error with Gemini API: " ++ exn_str e
                          ++ ". Please try again."))
    with ("Error with Gemini API: " ++ exn_str e ++ ". Please try again.").
  replace ("Error with Gemini API: " ++ exn_str e ++ ". Please try again.")
    with (("Error with Gemini API: " ++ exn_str e ++ ". Please try again")
            ++ String "." EmptyString)
    by (now rewrite !PyStrFacts.append_assoc).
  now apply rstrip_keeps_last.
Qed.




(** X29.  The documentation visuals always consist of exactly one entry,
    "ARCHITECTURE_VISUAL.md": the step cannot fail, because its request is
    plain text; when the provider is down the entry holds the fallback text
    of [next] and the usage log is as before. *)
Theorem documentation_visuals_always_one_entry
        (w : World) (ai : GeminiAI) (log : TokenUsageLog)
        (file_names : list string) (step_name : string) :
  exists arch_doc log',
    Steps._generate_documentation_visuals w ai log file_names step_name
    = ([("ARCHITECTURE_VISUAL.md", arch_doc)], log') /\
    (forall e, (forall m g, generate_content w m g = Raise e) ->
               arch_doc = fallback_response e /\ log' = log).
Proof.
  unfold Steps._generate_documentation_visuals.
  destruct (start_with_text w ai log Steps.arch_system
                            (Steps.arch_prompt w file_names)
                            (step_name ++ "_architecture"))
    as (text & log' & -> & Hdown).
  cbn [Steps.last_content_stripped rev app content].
  exists (Steps.strip text), log'. split; [reflexivity|].
  intros e He. destruct (Hdown e He) as [-> ->].
  now rewrite strip_fallback.
Qed.

(** X30.  The UI mockups step calls the model exactly when some file name,
    lower-cased, contains one of the six UI extensions anywhere in it: with
    no such name it returns no entry and leaves the usage log alone; with
    one it returns exactly the entry "UI_MOCKUPS.md". *)
Theorem ui_mockups_entry_iff_ui_file
        (w : World) (ai : GeminiAI) (log : TokenUsageLog)
        (file_names : list string) (prompt_text : string) :
  ((forall f, In f file_names -> Steps.is_ui_file w f = false) ->
   Steps._generate_ui_mockups w ai log file_names prompt_text = ([], log)) /\
  ((exists f, In f file_names /\ Steps.is_ui_file w f = true) ->
   exists mockup_description,
     fst (Steps._generate_ui_mockups w ai log file_names prompt_text)
     = [("UI_MOCKUPS.md", mockup_description)]).
Proof.
  unfold Steps._generate_ui_mockups. split.
  - intros Hnone.
    assert (Hf : filter (Steps.is_ui_file w) file_names = []).
    { induction file_names as [|f rest IH]; [reflexivity|]. simpl.
      rewrite (Hnone f (or_introl eq_refl)). apply IH.
      intros g Hg. apply Hnone. now right. }
    now rewrite Hf.
  - intros (f & Hin & Hui).
    assert (Hf : In f (filter (Steps.is_ui_file w) file_names))
      by (apply filter_In; now split).
    destruct (filter (Steps.is_ui_file w) file_names) as [|u us];
      [now elim Hf|].
    destruct (start_with_text w ai log Steps.mockup_system
                              (Steps.mockup_prompt w prompt_text (u :: us))
                              "ui_mockups")
      as (text & log' & -> & _).
    cbn [Steps.last_content_stripped rev app content].
    now exists (Steps.strip text).
Qed.

Lemma ui_mockups_json_counts_as_ui_example :
  exists mockup_description,
    fst (Steps._generate_ui_mockups
           Offline.world Offline.adapter Offline.empty_log
           ["main.py"; "package.json"] "todo app")
    = [("UI_MOCKUPS.md", mockup_description)].
Proof.
  apply (ui_mockups_entry_iff_ui_file
           Offline.world Offline.adapter Offline.empty_log
           ["main.py"; "package.json"] "todo app").
  exists "package.json". split; [right; now left | reflexivity].
Defined.

Lemma documentation_visuals_offline_example :
  exists arch_doc log',
    Steps._generate_documentation_visuals
      Offline.world Offline.adapter Offline.used_log ["main.py"] "docs"
    = ([("ARCHITECTURE_VISUAL.md", arch_doc)], log') /\
    arch_doc = fallback_response Offline.unreachable /\
    log' = Offline.used_log.
Proof.
  destruct (documentation_visuals_always_one_entry
              Offline.world Offline.adapter Offline.used_log
              ["main.py"] "docs") as (arch_doc & log' & H & Hdown).
  exists arch_doc, log'.
  split; [exact H | exact (Hdown Offline.unreachable (fun _ _ => eq_refl))].
Defined.
